(** * Docxodus-Viewer: the presentation-data layer of the demo components

    A shallow embedding of the three components of the viewer
    ([RevisionPanel.tsx], [DocumentViewer.tsx], [AnnotationViewer.tsx]) and
    the properties their specification states about them.

    Conventions of the embedding.
    - A JavaScript string is a [string]: one [ascii] per code unit, so
      the strings of the embedding are those of code units below 256.
      The white-space class and the case mappings are those of ECMAScript
      on these code units; the capitals of U+00B5 and U+00FF lie above
      255 and these two code units are kept as they are.
    - A JavaScript number that holds an integer is a [Z]; [parseInt]
      rounds to the nearest double, and the infinite result of a numeral
      of more than 308 digits is outside the embedding.
    - [undefined] is [None]; an optional field is an [option].
    - A plain object used as a dictionary is the list of its own
      enumerable entries in [Object.entries] order, because the code
      iterates over it and the order of the output depends on that order.
    - An event handler is a function of the component state.  A handler
      that awaits the engine is cut at the [await]: it yields the state
      committed so far, the request, and the continuation that runs when
      the promise settles. *)

From Stdlib Require Import Ascii String QArith.
From stdpp Require Import gmap strings list pretty.

Local Open Scope string_scope.
Local Open Scope list_scope.

(** ** ECMAScript string primitives used by the components *)

Module Js.

(** [!!s] for a string: only the empty string is falsy. *)
Definition truthy (s : string) : bool :=
  match s with
  | "" => false
  | String _ _ => true
  end.

(** [!!o] for an optional string: [undefined] and [""] are falsy. *)
Definition truthyOpt (o : option string) : bool :=
  match o with
  | Some s => truthy s
  | None => false
  end.

(** [a || b] on strings. *)
Definition orElse (a : option string) (b : string) : string :=
  match a with
  | Some s => if truthy s then s else b
  | None => b
  end.

Definition code (c : ascii) : nat := nat_of_ascii c.

Definition isUpperAZ (c : ascii) : bool :=
  (65 <=? code c)%nat && (code c <=? 90)%nat.

Definition isLowerAZ (c : ascii) : bool :=
  (97 <=? code c)%nat && (code c <=? 122)%nat.

Definition isDigit (c : ascii) : bool :=
  (48 <=? code c)%nat && (code c <=? 57)%nat.

(** White space of [\s] and of [trim] below 256: TAB, LF, VT, FF, CR, SP
    and the no-break space U+00A0. *)
Definition isSpace (c : ascii) : bool :=
  ((9 <=? code c)%nat && (code c <=? 13)%nat) || (code c =? 32)%nat
  || (code c =? 160)%nat.

(** Line terminators, which [.] does not match: LF and CR. *)
Definition isLineTerminator (c : ascii) : bool :=
  (code c =? 10)%nat || (code c =? 13)%nat.

(** The letters of the upper half that have the other case 32 places
    away: U+00C0 to U+00DE without the multiplication sign, and U+00E0 to
    U+00FE without the division sign. *)
Definition isUpperLatin (c : ascii) : bool :=
  (192 <=? code c)%nat && (code c <=? 222)%nat && negb (code c =? 215)%nat.

Definition isLowerLatin (c : ascii) : bool :=
  (224 <=? code c)%nat && (code c <=? 254)%nat && negb (code c =? 247)%nat.

(** [toUpperCase] of one code unit whose capital is one code unit. *)
Definition upperChar (c : ascii) : ascii :=
  if isLowerAZ c || isLowerLatin c then ascii_of_nat (code c - 32) else c.

Definition lowerChar (c : ascii) : ascii :=
  if isUpperAZ c || isUpperLatin c then ascii_of_nat (code c + 32) else c.

Fixpoint toLowerCase (s : string) : string :=
  match s with
  | "" => ""
  | String c t => String (lowerChar c) (toLowerCase t)
  end.

(** [hay.includes(needle)] *)
Fixpoint includes (needle hay : string) : bool :=
  String.prefix needle hay ||
  match hay with
  | "" => false
  | String _ t => includes needle t
  end.

Fixpoint skip (n : nat) (s : string) : string :=
  match n, s with
  | S n', String _ t => skip n' t
  | _, _ => s
  end.

(** [s.replace(pat, rep)] with a string pattern: the first occurrence
    only.  [rep] is taken literally, which is what ECMAScript does for a
    replacement text without [$]. *)
Fixpoint replaceFirst (pat rep s : string) : string :=
  if String.prefix pat s then rep +:+ skip (String.length pat) s
  else match s with
       | "" => ""
       | String c t => String c (replaceFirst pat rep t)
       end.

(** [s.replace(/([A-Z])/g, ' $1')] *)
Fixpoint spaceBeforeCapitals (s : string) : string :=
  match s with
  | "" => ""
  | String c t =>
      if isUpperAZ c then String " " (String c (spaceBeforeCapitals t))
      else String c (spaceBeforeCapitals t)
  end.

(** [s.replace(/^./, (str) => str.toUpperCase())]; the capital of the
    sharp s U+00DF is "SS". *)
Definition capitalizeFirst (s : string) : string :=
  match s with
  | "" => ""
  | String c t =>
      if isLineTerminator c then s
      else if (code c =? 223)%nat then String "S" (String "S" t)
      else String (upperChar c) t
  end.

Fixpoint trimStart (s : string) : string :=
  match s with
  | "" => ""
  | String c t => if isSpace c then trimStart t else s
  end.

Fixpoint trimEnd (s : string) : string :=
  match s with
  | "" => ""
  | String c t =>
      match trimEnd t with
      | "" => if isSpace c then "" else String c ""
      | t' => String c t'
      end
  end.

Definition trim (s : string) : string := trimEnd (trimStart s).

(** [s.replace(/\s+/g, '_')]: [inRun] tells that the previous code unit
    was white space, already replaced. *)
Fixpoint underscoreSpaces (inRun : bool) (s : string) : string :=
  match s with
  | "" => ""
  | String c t =>
      if isSpace c
      then if inRun then underscoreSpaces true t
           else String "_" (underscoreSpaces true t)
      else String c (underscoreSpaces false t)
  end.

(** *** [parseInt(s)] without a radix

    White space is skipped, one sign is read, a [0x]/[0X] prefix selects
    radix 16, and the longest run of digits is converted; [None] is
    [NaN].  The integer read is returned as a number, that is rounded
    to the nearest double ([toNumber]). *)

Definition digitValue (radix : Z) (c : ascii) : option Z :=
  let v :=
    if isDigit c then Some (Z.of_nat (code c) - 48)%Z
    else if isLowerAZ c then Some (Z.of_nat (code c) - 87)%Z
    else if isUpperAZ c then Some (Z.of_nat (code c) - 55)%Z
    else None in
  match v with
  | Some d => if (d <? radix)%Z then Some d else None
  | None => None
  end.

Fixpoint readDigits (radix : Z) (acc : option Z) (s : string) : option Z :=
  match s with
  | "" => acc
  | String c t =>
      match digitValue radix c with
      | Some d => readDigits radix (Some (default 0%Z acc * radix + d)%Z) t
      | None => acc
      end
  end.

Definition readSign (s : string) : Z * string :=
  match s with
  | String "-" t => ((-1)%Z, t)
  | String "+" t => (1%Z, t)
  | _ => (1%Z, s)
  end.

Definition readRadix (s : string) : Z * string :=
  match s with
  | String "0" (String "x" t) => (16%Z, t)
  | String "0" (String "X" t) => (16%Z, t)
  | _ => (10%Z, s)
  end.

(** The double nearest to an integer, ties to the even significand of 53
    bits: integers up to 2^53 in magnitude are kept, larger ones lose
    their low bits. *)
Definition toNumber (n : Z) : Z :=
  let m := Z.abs n in
  let e := (Z.log2 m - 52)%Z in
  if (e <=? 0)%Z then n
  else
    let q := Z.shiftr m e in
    let r := Z.land m (Z.ones e) in
    let half := Z.shiftl 1 (e - 1) in
    let up := (half <? r)%Z || ((r =? half)%Z && Z.odd q) in
    (Z.sgn n * Z.shiftl (if up then q + 1 else q) e)%Z.

Definition parseInt (s : string) : option Z :=
  let '(sign, s1) := readSign (trimStart s) in
  let '(radix, s2) := readRadix s1 in
  (λ n, toNumber (sign * n))%Z <$> readDigits radix None s2.

(** [n || d] on a number that may be [NaN] or absent: [0], [NaN] and
    [undefined] are falsy. *)
Definition numberOr (n : option Z) (d : Z) : Z :=
  match n with
  | Some v => if (v =? 0)%Z then d else v
  | None => d
  end.

End Js.

(** ** RevisionPanel.tsx *)

Module RevisionPanel.

(** The [revisionType] tag of a revision record of the engine.  The
    panel falls back to printing the tag for a kind it does not know,
    hence [OtherType]. *)
Inductive RevisionType :=
| Inserted
| Deleted
| Moved
| FormatChanged
| OtherType (tag : string).

(** [Record<string, string>] in [Object.entries] order. *)
Abbreviation Properties := (list (string * string)).

Record FormatChangeInfo := {
  oldProperties : option Properties;
  newProperties : option Properties
}.

Record Revision := {
  revisionType : RevisionType;
  author : string;
  date : string;
  text : string;
  moveGroupId : option Z;
  isMoveSource : option bool;
  formatChange : option FormatChangeInfo
}.

(** Modelled from the spec: the type guards [isInsertion], [isDeletion],
    [isMove] and [isFormatChange] are imported from the engine package
    and are not part of this repository.  A revision record carries its
    kind (spec, Data model), and each guard tests it. *)
Definition isInsertion (r : Revision) : bool :=
  match revisionType r with Inserted => true | _ => false end.

Definition isDeletion (r : Revision) : bool :=
  match revisionType r with Deleted => true | _ => false end.

Definition isMove (r : Revision) : bool :=
  match revisionType r with Moved => true | _ => false end.

Definition isFormatChange (r : Revision) : bool :=
  match revisionType r with FormatChanged => true | _ => false end.

Definition getRevisionTypeLabel (r : Revision) : string :=
  if isInsertion r then "Inserted"
  else if isDeletion r then "Deleted"
  else if isMove r then
    match isMoveSource r with Some true => "Moved from" | _ => "Moved to" end
  else if isFormatChange r then "Formatted"
  else match revisionType r with
       | OtherType tag => tag
       | Inserted => "Inserted"
       | Deleted => "Deleted"
       | Moved => "Moved"
       | FormatChanged => "FormatChanged"
       end.

Definition truncateText (maxLength : nat) (t : string) : string :=
  if (String.length t <=? maxLength)%nat then t
  else String.substring 0 maxLength t +:+ "...".

Definition isValidPropertyValue (value : string) : bool :=
  if negb (Js.truthy value) then false
  else if Js.includes "<" value || Js.includes "xmlns" value
          || Js.includes "Unid=" value then false
  else if (100 <? String.length value)%nat then false
  else true.

Definition formatPropertyName (name : string) : string :=
  Js.trim (Js.capitalizeFirst (Js.spaceBeforeCapitals name)).

Definition formatPropertyValue (value : string) : string :=
  if String.eqb value "true" then "Yes"
  else if String.eqb value "false" then "No"
  else if String.eqb value "single" then "Single"
  else if String.eqb value "double" then "Double"
  else value.

Record FormatChangeItem := {
  property : string;
  oldValue : option string;
  newValue : option string
}.

(** [props?.[key]] for a string-valued dictionary.  A property found
    only on the prototype is not a string, and the one use below
    discards every non-string, so own entries are all that matters. *)
Fixpoint entryOf (key : string) (ps : Properties) : option string :=
  match ps with
  | [] => None
  | (k, v) :: rest => if String.eqb k key then Some v else entryOf key rest
  end.

Definition lookupProperty (props : option Properties) (key : string)
  : option string :=
  match props with
  | Some ps => entryOf key ps
  | None => None
  end.

(** The two mutable locals of [getFormatChanges]. *)
Record Locals := {
  changes : list FormatChangeItem;
  processedKeys : gset string
}.

(** Body of the first loop, over the entries of [oldProperties]. *)
Definition oldPass (newProps : option Properties) (st : Locals)
    (entry : string * string) : Locals :=
  let '(key, value) := entry in
  if negb (isValidPropertyValue value) then st
  else
    let newValue := lookupProperty newProps key in
    {| changes := changes st ++
         [ {| property := formatPropertyName key;
              oldValue := Some (formatPropertyValue value);
              newValue :=
                match newValue with
                | Some nv =>
                    if Js.truthy nv && isValidPropertyValue nv
                    then Some (formatPropertyValue nv) else None
                | None => None
                end |} ];
       processedKeys := {[ key ]} ∪ processedKeys st |}.

(** Body of the second loop, over the entries of [newProperties]. *)
Definition newPass (st : Locals) (entry : string * string) : Locals :=
  let '(key, value) := entry in
  if bool_decide (key ∈ processedKeys st) then st
  else if negb (isValidPropertyValue value) then st
  else
    {| changes := changes st ++
         [ {| property := formatPropertyName key;
              oldValue := None;
              newValue := Some (formatPropertyValue value) |} ];
       processedKeys := processedKeys st |}.

Definition diffProperties (fc : FormatChangeInfo) : list FormatChangeItem :=
  let st0 := {| changes := []; processedKeys := ∅ |} in
  let st1 :=
    match oldProperties fc with
    | Some ps => fold_left (oldPass (newProperties fc)) ps st0
    | None => st0
    end in
  let st2 :=
    match newProperties fc with
    | Some ps => fold_left newPass ps st1
    | None => st1
    end in
  changes st2.

Definition getFormatChanges (revision : Revision) : list FormatChangeItem :=
  match formatChange revision with
  | None => []
  | Some fc => diffProperties fc
  end.

Inductive FilterType :=
| FilterAll
| FilterInsertions
| FilterDeletions
| FilterMoves
| FilterFormatting.

Definition filteredRevisions (flt : FilterType) (revisions : list Revision)
  : list Revision :=
  match flt with
  | FilterAll => revisions
  | FilterInsertions => filter (λ r, isInsertion r = true) revisions
  | FilterDeletions => filter (λ r, isDeletion r = true) revisions
  | FilterMoves => filter (λ r, isMove r = true) revisions
  | FilterFormatting => filter (λ r, isFormatChange r = true) revisions
  end.

Record Stats := {
  total : nat;
  insertions : nat;
  deletions : nat;
  moves : nat;
  formatting : nat
}.

Definition stats (revisions : list Revision) : Stats :=
  {| total := length revisions;
     insertions := length (filter (λ r, isInsertion r = true) revisions);
     deletions := length (filter (λ r, isDeletion r = true) revisions);
     moves := length (filter (λ r, isMove r = true) revisions);
     formatting := length (filter (λ r, isFormatChange r = true) revisions) |}.

(** *** The rendered panel

    What the component returns, as data: the pieces of text and the
    conditions under which each element is present.  The date column is
    left out: [toLocaleDateString] depends on the locale of the browser. *)

Definition getRevisionTypeClass (r : Revision) : string :=
  if isInsertion r then "rdv-revision--insertion"
  else if isDeletion r then "rdv-revision--deletion"
  else if isMove r then "rdv-revision--move"
  else if isFormatChange r then "rdv-revision--format"
  else "".

(** [toggleExpanded(index)]: the updater passed to [setExpandedIds]. *)
Definition toggleExpanded (index : nat) (prev : gset nat) : gset nat :=
  if bool_decide (index ∈ prev) then prev ∖ {[ index ]}
  else {[ index ]} ∪ prev.

(** One row of the format details: which of the spans are rendered. *)
Record ChangeRow := {
  rowProperty : string;
  rowOld : option string;
  rowArrow : bool;
  rowNew : option string;
  rowAdded : bool;
  rowRemoved : bool
}.

Definition renderChange (change : FormatChangeItem) : ChangeRow :=
  let hasOld := Js.truthyOpt (oldValue change) in
  let hasNew := Js.truthyOpt (newValue change) in
  {| rowProperty := property change;
     rowOld := if hasOld then oldValue change else None;
     rowArrow := hasOld && hasNew;
     rowNew := if hasNew then newValue change else None;
     rowAdded := negb hasOld && hasNew;
     rowRemoved := hasOld && negb hasNew |}.

(** One item of the list. *)
Record ItemView := {
  itemClass : string;
  typeLabel : string;
  moveBadge : option Z;
  authorShown : string;
  textShown : option string;
  expandButton : option string;
  formatDetails : list ChangeRow
}.

Definition renderItem (expandedIds : gset nat) (index : nat)
    (revision : Revision) : ItemView :=
  let isExpanded := bool_decide (index ∈ expandedIds) in
  let needsTruncation := (150 <? String.length (text revision))%nat in
  let formatChanges :=
    if isFormatChange revision then getFormatChanges revision else [] in
  {| itemClass := "rdv-revision-item " +:+ getRevisionTypeClass revision;
     typeLabel := getRevisionTypeLabel revision;
     moveBadge := if isMove revision then moveGroupId revision else None;
     authorShown :=
       if Js.truthy (author revision) then author revision else "Unknown";
     textShown :=
       if Js.truthy (text revision)
       then Some (if isExpanded then text revision
                  else truncateText 150 (text revision))
       else None;
     expandButton :=
       if Js.truthy (text revision) && needsTruncation
       then Some (if isExpanded then "Show less" else "Show more")
       else None;
     formatDetails :=
       if (0 <? length formatChanges)%nat
       then renderChange <$> formatChanges else [] |}.

(** The badges of the header, one per kind that occurs, and the counts
    announced in the options of the filter. *)
Definition badges (s : Stats) : list (FilterType * nat) :=
  (if (0 <? insertions s)%nat then [(FilterInsertions, insertions s)] else [])
  ++ (if (0 <? deletions s)%nat then [(FilterDeletions, deletions s)] else [])
  ++ (if (0 <? moves s)%nat then [(FilterMoves, moves s)] else [])
  ++ (if (0 <? formatting s)%nat then [(FilterFormatting, formatting s)]
      else []).

Definition announced (flt : FilterType) (s : Stats) : nat :=
  match flt with
  | FilterAll => total s
  | FilterInsertions => insertions s
  | FilterDeletions => deletions s
  | FilterMoves => moves s
  | FilterFormatting => formatting s
  end.

Inductive PanelView :=
| EmptyPanel
| Panel (header : Stats) (items : list ItemView).

Definition RevisionPanel (flt : FilterType) (expandedIds : gset nat)
    (revisions : list Revision) : PanelView :=
  match revisions with
  | [] => EmptyPanel
  | _ :: _ =>
      Panel (stats revisions)
            (imap (renderItem expandedIds) (filteredRevisions flt revisions))
  end.

End RevisionPanel.


(** ** What the components share with their host

    A [File] of the browser, a thrown value, and the shape of a handler
    that awaits the engine at most once. *)

Module Host.

Record File := {
  name : string;
  content : list Byte.byte
}.

(** A value caught by [catch (err)]: an [Error] with its message, or
    anything else. *)
Inductive Thrown :=
| ErrorObject (message : string)
| OtherValue (shown : string).

(** How an [async] handler ends: its promise resolves, or it rejects. *)
Inductive Completion (S : Type) :=
| Returns (s : S)
| Throws (e : Thrown) (s : S).

Arguments Returns {S} s.
Arguments Throws {S} e s.

(** A handler either runs to its end without suspending ([Done]), or it
    commits the state [s], sends [call] and suspends; [k] is the rest of
    the handler, run on the reply and on the state of that moment. *)
Inductive Step (Call Reply S : Type) :=
| Done (s : S)
| Await (s : S) (call : Call) (k : Reply → S → Completion S).

Arguments Done {Call Reply S} s.
Arguments Await {Call Reply S} s call k.

(** The requests a handler sends. *)
Definition calls {Call Reply S} (st : Step Call Reply S) : list Call :=
  match st with
  | Done _ => []
  | Await _ c _ => [c]
  end.

(** The state a handler has committed when it returns control, that is
    at its end or at its [await]. *)
Definition committed {Call Reply S} (st : Step Call Reply S) : S :=
  match st with
  | Done s => s
  | Await s _ _ => s
  end.

(** The handler run to its end against an engine that answers [answer]. *)
Definition settle {Call Reply S} (answer : Call → Reply)
    (st : Step Call Reply S) : Completion S :=
  match st with
  | Done s => Returns s
  | Await s c k => k (answer c) s
  end.

Definition finalState {S} (c : Completion S) : S :=
  match c with
  | Returns s => s
  | Throws _ s => s
  end.

Definition rejects {S} (c : Completion S) : bool :=
  match c with
  | Returns _ => false
  | Throws _ _ => true
  end.

End Host.

(** ** DocumentViewer.tsx *)

Module DocumentViewer.

Import Host.

Inductive CommentMode :=
| disabled
| endnote
| inline
| margin.

(** The two enumerations of the engine the component maps to. *)
Inductive CommentRenderMode :=
| Disabled
| EndnoteStyle
| Inline
| Margin.

Inductive PaginationMode :=
| PaginationNone
| Paginated.

(** The [useState] cells of the component.  The scale is a JavaScript
    number that is only stored and handed on, never computed with. *)
Record State := {
  fileName : string;
  commentMode : CommentMode;
  pendingFile : option File;
  enablePagination : bool;
  paginationScale : Q;
  showPageNumbers : bool;
  pageTitle : string;
  cssPrefix : string;
  fabricateClasses : bool;
  additionalCss : string;
  commentCssClassPrefix : string;
  showAdvanced : bool
}.

Definition initial : State :=
  {| fileName := "";
     commentMode := disabled;
     pendingFile := None;
     enablePagination := false;
     paginationScale := 8 # 10;
     showPageNumbers := true;
     pageTitle := "Document";
     cssPrefix := "docx-";
     fabricateClasses := true;
     additionalCss := "";
     commentCssClassPrefix := "comment-";
     showAdvanced := false |}.

Record ConvertOptions := {
  optCommentRenderMode : CommentRenderMode;
  optPageTitle : string;
  optCssPrefix : string;
  optFabricateClasses : bool;
  optAdditionalCss : option string;
  optCommentCssClassPrefix : string;
  optPaginationMode : PaginationMode;
  optPaginationScale : option Q
}.

(** [convert(file, options)] of the conversion hook: the one engine call
    of this component. *)
Record Convert := {
  convertFile : File;
  convertOptions : ConvertOptions
}.

Inductive ConvertReply :=
| Converted
| ConvertRejected (e : Thrown).

Definition getCommentRenderMode (mode : CommentMode) : CommentRenderMode :=
  match mode with
  | endnote => EndnoteStyle
  | inline => Inline
  | margin => Margin
  | disabled => Disabled
  end.

(** [s || undefined] *)
Definition orUndefined (s : string) : option string :=
  if Js.truthy s then Some s else None.

Definition getConvertOptions (st : State) : ConvertOptions :=
  {| optCommentRenderMode := getCommentRenderMode (commentMode st);
     optPageTitle := pageTitle st;
     optCssPrefix := cssPrefix st;
     optFabricateClasses := fabricateClasses st;
     optAdditionalCss := orUndefined (additionalCss st);
     optCommentCssClassPrefix := commentCssClassPrefix st;
     optPaginationMode :=
       if enablePagination st then Paginated else PaginationNone;
     optPaginationScale :=
       if enablePagination st then Some (paginationScale st) else None |}.

(** The setters of the [useState] cells that the handlers call. *)
Definition setFileName (v : string) (st : State) : State :=
  {| fileName := v; commentMode := commentMode st;
     pendingFile := pendingFile st; enablePagination := enablePagination st;
     paginationScale := paginationScale st;
     showPageNumbers := showPageNumbers st; pageTitle := pageTitle st;
     cssPrefix := cssPrefix st; fabricateClasses := fabricateClasses st;
     additionalCss := additionalCss st;
     commentCssClassPrefix := commentCssClassPrefix st;
     showAdvanced := showAdvanced st |}.

Definition setCommentMode (v : CommentMode) (st : State) : State :=
  {| fileName := fileName st; commentMode := v;
     pendingFile := pendingFile st; enablePagination := enablePagination st;
     paginationScale := paginationScale st;
     showPageNumbers := showPageNumbers st; pageTitle := pageTitle st;
     cssPrefix := cssPrefix st; fabricateClasses := fabricateClasses st;
     additionalCss := additionalCss st;
     commentCssClassPrefix := commentCssClassPrefix st;
     showAdvanced := showAdvanced st |}.

Definition setPendingFile (v : option File) (st : State) : State :=
  {| fileName := fileName st; commentMode := commentMode st;
     pendingFile := v; enablePagination := enablePagination st;
     paginationScale := paginationScale st;
     showPageNumbers := showPageNumbers st; pageTitle := pageTitle st;
     cssPrefix := cssPrefix st; fabricateClasses := fabricateClasses st;
     additionalCss := additionalCss st;
     commentCssClassPrefix := commentCssClassPrefix st;
     showAdvanced := showAdvanced st |}.

Definition setEnablePagination (v : bool) (st : State) : State :=
  {| fileName := fileName st; commentMode := commentMode st;
     pendingFile := pendingFile st; enablePagination := v;
     paginationScale := paginationScale st;
     showPageNumbers := showPageNumbers st; pageTitle := pageTitle st;
     cssPrefix := cssPrefix st; fabricateClasses := fabricateClasses st;
     additionalCss := additionalCss st;
     commentCssClassPrefix := commentCssClassPrefix st;
     showAdvanced := showAdvanced st |}.

Definition setPaginationScale (v : Q) (st : State) : State :=
  {| fileName := fileName st; commentMode := commentMode st;
     pendingFile := pendingFile st; enablePagination := enablePagination st;
     paginationScale := v;
     showPageNumbers := showPageNumbers st; pageTitle := pageTitle st;
     cssPrefix := cssPrefix st; fabricateClasses := fabricateClasses st;
     additionalCss := additionalCss st;
     commentCssClassPrefix := commentCssClassPrefix st;
     showAdvanced := showAdvanced st |}.

Definition setShowPageNumbers (v : bool) (st : State) : State :=
  {| fileName := fileName st; commentMode := commentMode st;
     pendingFile := pendingFile st; enablePagination := enablePagination st;
     paginationScale := paginationScale st;
     showPageNumbers := v; pageTitle := pageTitle st;
     cssPrefix := cssPrefix st; fabricateClasses := fabricateClasses st;
     additionalCss := additionalCss st;
     commentCssClassPrefix := commentCssClassPrefix st;
     showAdvanced := showAdvanced st |}.

Definition setPageTitle (v : string) (st : State) : State :=
  {| fileName := fileName st; commentMode := commentMode st;
     pendingFile := pendingFile st; enablePagination := enablePagination st;
     paginationScale := paginationScale st;
     showPageNumbers := showPageNumbers st; pageTitle := v;
     cssPrefix := cssPrefix st; fabricateClasses := fabricateClasses st;
     additionalCss := additionalCss st;
     commentCssClassPrefix := commentCssClassPrefix st;
     showAdvanced := showAdvanced st |}.

Definition setCssPrefix (v : string) (st : State) : State :=
  {| fileName := fileName st; commentMode := commentMode st;
     pendingFile := pendingFile st; enablePagination := enablePagination st;
     paginationScale := paginationScale st;
     showPageNumbers := showPageNumbers st; pageTitle := pageTitle st;
     cssPrefix := v; fabricateClasses := fabricateClasses st;
     additionalCss := additionalCss st;
     commentCssClassPrefix := commentCssClassPrefix st;
     showAdvanced := showAdvanced st |}.

Definition setFabricateClasses (v : bool) (st : State) : State :=
  {| fileName := fileName st; commentMode := commentMode st;
     pendingFile := pendingFile st; enablePagination := enablePagination st;
     paginationScale := paginationScale st;
     showPageNumbers := showPageNumbers st; pageTitle := pageTitle st;
     cssPrefix := cssPrefix st; fabricateClasses := v;
     additionalCss := additionalCss st;
     commentCssClassPrefix := commentCssClassPrefix st;
     showAdvanced := showAdvanced st |}.

Definition setAdditionalCss (v : string) (st : State) : State :=
  {| fileName := fileName st; commentMode := commentMode st;
     pendingFile := pendingFile st; enablePagination := enablePagination st;
     paginationScale := paginationScale st;
     showPageNumbers := showPageNumbers st; pageTitle := pageTitle st;
     cssPrefix := cssPrefix st; fabricateClasses := fabricateClasses st;
     additionalCss := v;
     commentCssClassPrefix := commentCssClassPrefix st;
     showAdvanced := showAdvanced st |}.

Definition setCommentCssClassPrefix (v : string) (st : State) : State :=
  {| fileName := fileName st; commentMode := commentMode st;
     pendingFile := pendingFile st; enablePagination := enablePagination st;
     paginationScale := paginationScale st;
     showPageNumbers := showPageNumbers st; pageTitle := pageTitle st;
     cssPrefix := cssPrefix st; fabricateClasses := fabricateClasses st;
     additionalCss := additionalCss st;
     commentCssClassPrefix := v;
     showAdvanced := showAdvanced st |}.

(** [await convert(...)] with nothing after it and no [try]: a rejection
    of the hook's promise is the handler's. *)
Definition afterConvert (reply : ConvertReply) (st : State)
  : Completion State :=
  match reply with
  | Converted => Returns st
  | ConvertRejected e => Throws e st
  end.

(** [convert(...)] that is not awaited: the handler has ended. *)
Definition notAwaited (reply : ConvertReply) (st : State)
  : Completion State :=
  Returns st.

Definition Handler := Step Convert ConvertReply State.

(** [handleFileChange]; [picked] is [e.target.files?.[0]]. *)
Definition handleFileChange (picked : option File) (st : State) : Handler :=
  match picked with
  | Some file =>
      Await (setPendingFile (Some file) (setFileName (name file) st))
            {| convertFile := file; convertOptions := getConvertOptions st |}
            afterConvert
  | None => Done st
  end.

Definition reconvert (st : State) : Handler :=
  match pendingFile st with
  | Some file =>
      Await st
            {| convertFile := file; convertOptions := getConvertOptions st |}
            afterConvert
  | None => Done st
  end.

(** The options of the render the handler was created in, with one
    field overridden: [{ ...getConvertOptions(), commentRenderMode: m }]. *)
Definition withCommentRenderMode (m : CommentRenderMode)
    (o : ConvertOptions) : ConvertOptions :=
  {| optCommentRenderMode := m;
     optPageTitle := optPageTitle o;
     optCssPrefix := optCssPrefix o;
     optFabricateClasses := optFabricateClasses o;
     optAdditionalCss := optAdditionalCss o;
     optCommentCssClassPrefix := optCommentCssClassPrefix o;
     optPaginationMode := optPaginationMode o;
     optPaginationScale := optPaginationScale o |}.

(** [{ ...getConvertOptions(), fabricateClasses: b }] *)
Definition withFabricateClasses (b : bool)
    (o : ConvertOptions) : ConvertOptions :=
  {| optCommentRenderMode := optCommentRenderMode o;
     optPageTitle := optPageTitle o;
     optCssPrefix := optCssPrefix o;
     optFabricateClasses := b;
     optAdditionalCss := optAdditionalCss o;
     optCommentCssClassPrefix := optCommentCssClassPrefix o;
     optPaginationMode := optPaginationMode o;
     optPaginationScale := optPaginationScale o |}.

Definition handleCommentModeChange (mode : CommentMode) (st : State)
  : Handler :=
  match pendingFile st with
  | Some file =>
      Await (setCommentMode mode st)
            {| convertFile := file;
               convertOptions :=
                 withCommentRenderMode (getCommentRenderMode mode)
                   (getConvertOptions st) |}
            afterConvert
  | None => Done (setCommentMode mode st)
  end.

Definition handlePaginationToggle (enabled : bool) (st : State) : Handler :=
  match pendingFile st with
  | Some file =>
      Await (setEnablePagination enabled st)
            {| convertFile := file;
               convertOptions :=
                 {| optCommentRenderMode :=
                      getCommentRenderMode (commentMode st);
                    optPageTitle := pageTitle st;
                    optCssPrefix := cssPrefix st;
                    optFabricateClasses := fabricateClasses st;
                    optAdditionalCss := orUndefined (additionalCss st);
                    optCommentCssClassPrefix := commentCssClassPrefix st;
                    optPaginationMode :=
                      if enabled then Paginated else PaginationNone;
                    optPaginationScale :=
                      if enabled then Some (paginationScale st) else None |} |}
            afterConvert
  | None => Done (setEnablePagination enabled st)
  end.

(** The inline [onChange] of the "Fabricate CSS classes" checkbox. *)
Definition fabricateClassesChanged (checked : bool) (st : State) : Handler :=
  match pendingFile st with
  | Some file =>
      Await (setFabricateClasses checked st)
            {| convertFile := file;
               convertOptions :=
                 withFabricateClasses checked (getConvertOptions st) |}
            notAwaited
  | None => Done (setFabricateClasses checked st)
  end.

Definition handleClear (st : State) : State :=
  setPendingFile None (setFileName "" st).

(** A change of one recognised setting, as the controls report it. *)
Inductive SettingsChange :=
| ChangeCommentMode (mode : CommentMode)
| ChangePaginationMode (enabled : bool)
| ChangePaginationScale (scale : Q)
| ChangeShowPageNumbers (checked : bool)
| ChangePageTitle (value : string)
| ChangeCssPrefix (value : string)
| ChangeCommentCssClassPrefix (value : string)
| ChangeAdditionalCss (value : string)
| ChangeFabricateClasses (checked : bool).

(** The [onChange] handler each control is wired to. *)
Definition onChange (c : SettingsChange) (st : State) : Handler :=
  match c with
  | ChangeCommentMode mode => handleCommentModeChange mode st
  | ChangePaginationMode enabled => handlePaginationToggle enabled st
  | ChangePaginationScale scale => Done (setPaginationScale scale st)
  | ChangeShowPageNumbers checked => Done (setShowPageNumbers checked st)
  | ChangePageTitle value => Done (setPageTitle value st)
  | ChangeCssPrefix value => Done (setCssPrefix value st)
  | ChangeCommentCssClassPrefix value =>
      Done (setCommentCssClassPrefix value st)
  | ChangeAdditionalCss value => Done (setAdditionalCss value st)
  | ChangeFabricateClasses checked => fabricateClassesChanged checked st
  end.

(** Everything the controls of the options section can report: a change,
    or the end of an edit ([onBlur] of a text field, [onMouseUp] and
    [onTouchEnd] of the scale slider), which is wired to [reconvert]. *)
Inductive OptionsEvent :=
| Changed (c : SettingsChange)
| EditEnded.

Definition onEvent (e : OptionsEvent) (st : State) : Handler :=
  match e with
  | Changed c => onChange c st
  | EditEnded => reconvert st
  end.

End DocumentViewer.

(** ** AnnotationViewer.tsx *)

Module AnnotationViewer.

Import Host.

Definition Bytes := list Byte.byte.

Record Annotation := {
  annotId : string;
  annotLabelId : string;
  annotLabel : string;
  annotColor : string;
  annotatedText : option string;
  annotAuthor : option string;
  annotCreated : option string
}.

(** [AddAnnotationRequest], as the handler fills it in. *)
Record AddAnnotationRequest := {
  id : string;
  labelId : string;
  label : string;
  color : option string;
  searchText : option string;
  occurrence : Z
}.

(** [Partial<AddAnnotationRequest>]: the form under edit. *)
Record Draft := {
  draftId : option string;
  draftLabelId : option string;
  draftLabel : option string;
  draftColor : option string;
  draftSearchText : option string;
  draftOccurrence : option Z
}.

Definition emptyDraft : Draft :=
  {| draftId := Some "";
     draftLabelId := Some "";
     draftLabel := Some "";
     draftColor := Some "#FFEB3B";
     draftSearchText := Some "";
     draftOccurrence := Some 1%Z |}.

(** The [useState] cells of the component, and the browser console the
    component writes to. *)
Record State := {
  file : option File;
  fileName : string;
  showAddForm : bool;
  newAnnotation : Draft;
  isAdding : bool;
  addError : option string;
  console : list (string * Thrown)
}.

Definition initial : State :=
  {| file := None;
     fileName := "";
     showAddForm := false;
     newAnnotation := emptyDraft;
     isAdding := false;
     addError := None;
     console := [] |}.

Definition setNewAnnotation (d : Draft) (st : State) : State :=
  {| file := file st; fileName := fileName st;
     showAddForm := showAddForm st; newAnnotation := d;
     isAdding := isAdding st; addError := addError st;
     console := console st |}.

Definition setShowAddForm (b : bool) (st : State) : State :=
  {| file := file st; fileName := fileName st;
     showAddForm := b; newAnnotation := newAnnotation st;
     isAdding := isAdding st; addError := addError st;
     console := console st |}.

Definition setIsAdding (b : bool) (st : State) : State :=
  {| file := file st; fileName := fileName st;
     showAddForm := showAddForm st; newAnnotation := newAnnotation st;
     isAdding := b; addError := addError st;
     console := console st |}.

Definition setAddError (e : option string) (st : State) : State :=
  {| file := file st; fileName := fileName st;
     showAddForm := showAddForm st; newAnnotation := newAnnotation st;
     isAdding := isAdding st; addError := e;
     console := console st |}.

Definition setFile (f : option File) (st : State) : State :=
  {| file := f; fileName := fileName st;
     showAddForm := showAddForm st; newAnnotation := newAnnotation st;
     isAdding := isAdding st; addError := addError st;
     console := console st |}.

Definition setFileName (n : string) (st : State) : State :=
  {| file := file st; fileName := n;
     showAddForm := showAddForm st; newAnnotation := newAnnotation st;
     isAdding := isAdding st; addError := addError st;
     console := console st |}.

(** [console.error(text, err)] *)
Definition consoleError (text : string) (err : Thrown) (st : State) : State :=
  {| file := file st; fileName := fileName st;
     showAddForm := showAddForm st; newAnnotation := newAnnotation st;
     isAdding := isAdding st; addError := addError st;
     console := console st ++ [(text, err)] |}.

(** *** The form fields *)

(** [{ ...newAnnotation, label: v }] and its siblings. *)
Definition withLabel (v : string) (d : Draft) : Draft :=
  {| draftId := draftId d; draftLabelId := draftLabelId d;
     draftLabel := Some v; draftColor := draftColor d;
     draftSearchText := draftSearchText d;
     draftOccurrence := draftOccurrence d |}.

Definition withSearchText (v : string) (d : Draft) : Draft :=
  {| draftId := draftId d; draftLabelId := draftLabelId d;
     draftLabel := draftLabel d; draftColor := draftColor d;
     draftSearchText := Some v;
     draftOccurrence := draftOccurrence d |}.

Definition withColor (v : string) (d : Draft) : Draft :=
  {| draftId := draftId d; draftLabelId := draftLabelId d;
     draftLabel := draftLabel d; draftColor := Some v;
     draftSearchText := draftSearchText d;
     draftOccurrence := draftOccurrence d |}.

Definition withOccurrence (v : Z) (d : Draft) : Draft :=
  {| draftId := draftId d; draftLabelId := draftLabelId d;
     draftLabel := draftLabel d; draftColor := draftColor d;
     draftSearchText := draftSearchText d;
     draftOccurrence := Some v |}.

(** What the user can do to the form: type in one of the four inputs.
    The argument is [e.target.value], a string for every input. *)
Inductive FormInput :=
| TypeLabel (value : string)
| TypeSearchText (value : string)
| PickColor (value : string)
| TypeOccurrence (value : string).

Definition onInput (i : FormInput) (st : State) : State :=
  match i with
  | TypeLabel v => setNewAnnotation (withLabel v (newAnnotation st)) st
  | TypeSearchText v =>
      setNewAnnotation (withSearchText v (newAnnotation st)) st
  | PickColor v => setNewAnnotation (withColor v (newAnnotation st)) st
  | TypeOccurrence v =>
      setNewAnnotation
        (withOccurrence (Js.numberOr (Js.parseInt v) 1) (newAnnotation st)) st
  end.

(** *** File selection *)

Definition handleFileChange (picked : option File) (st : State) : State :=
  match picked with
  | Some selectedFile =>
      setAddError None
        (setShowAddForm false
           (setFileName (name selectedFile) (setFile (Some selectedFile) st)))
  | None => st
  end.

Definition handleClear (st : State) : State :=
  setAddError None (setShowAddForm false (setFileName "" (setFile None st))).

(** *** Adding *)

(** What [await add(request)] evaluates to; the hook may resolve to
    nothing, hence [result?.success]. *)
Record AddResult := {
  success : bool;
  annotation : option Annotation;
  mutatedBytes : option Bytes
}.

Inductive AddReply :=
| AddSettled (result : option AddResult)
| AddRejected (e : Thrown).

(** [a || b] where both may be absent. *)
Definition orOpt (a b : option string) : option string :=
  if Js.truthyOpt a then a else b.

(** The request built inside [try]; [now] is the reading of
    [Date.now()]. *)
Definition buildRequest (now : N) (d : Draft) : AddAnnotationRequest :=
  {| id := Js.orElse (draftId d) ("annot-" +:+ pretty now);
     labelId :=
       Js.orElse
         (orOpt (draftLabelId d)
            ((λ l, Js.underscoreSpaces false (Js.toLowerCase l))
               <$> draftLabel d))
         "";
     label := Js.orElse (draftLabel d) "";
     color := draftColor d;
     searchText := draftSearchText d;
     occurrence := Js.numberOr (draftOccurrence d) 1 |}.

Definition messageOf (err : Thrown) : string :=
  match err with
  | ErrorObject m => m
  | OtherValue _ => "Failed to add annotation"
  end.

(** The part of [handleAddAnnotation] after [await add(request)],
    [catch] and [finally] included. *)
Definition afterAdd (reply : AddReply) (st : State) : Completion State :=
  let st1 :=
    match reply with
    | AddSettled (Some {| success := true |}) =>
        setShowAddForm false (setNewAnnotation emptyDraft st)
    | AddSettled _ => setAddError (Some "Failed to add annotation") st
    | AddRejected err => setAddError (Some (messageOf err)) st
    end in
  Returns (setIsAdding false st1).

Definition handleAddAnnotation (now : N) (st : State)
  : Step AddAnnotationRequest AddReply State :=
  if negb (Js.truthyOpt (draftLabel (newAnnotation st)))
     || negb (Js.truthyOpt (draftSearchText (newAnnotation st)))
  then Done (setAddError (Some "Label and search text are required") st)
  else
    Await (setAddError None (setIsAdding true st))
          (buildRequest now (newAnnotation st))
          afterAdd.

(** *** Removing *)

Record RemoveResult := {
  removedBytes : Bytes;
  remaining : list Annotation
}.

Inductive RemoveReply :=
| RemoveSettled (result : RemoveResult)
| RemoveRejected (e : Thrown).

Definition afterRemove (reply : RemoveReply) (st : State)
  : Completion State :=
  match reply with
  | RemoveSettled _ => Returns st
  | RemoveRejected err =>
      Returns (consoleError "Failed to remove annotation:" err st)
  end.

Definition handleRemoveAnnotation (annotationId : string) (st : State)
  : Step string RemoveReply State :=
  Await st annotationId afterRemove.

(** *** Downloading *)

(** The anchor the handler clicks: the blob behind its [href], and its
    [download] attribute. *)
Record Download := {
  blob : Bytes;
  blobType : string;
  downloadName : string
}.

Definition handleDownload (documentBytes : option Bytes) (st : State)
  : option Download :=
  match documentBytes with
  | None => None
  | Some bytes =>
      Some {| blob := bytes;
              blobType :=
                "application/vnd.openxmlformats-officedocument.wordprocessingml.document";
              downloadName :=
                Js.replaceFirst ".docx" "-annotated.docx" (fileName st) |}
  end.

(** *** The annotation hook

    Modelled from the spec: [useAnnotations] comes from the engine's React
    bindings and is not part of this repository.  Per the spec (Annotation
    Mutator): the hook owns [annotations] and [documentBytes]; loading a
    file sets the list to what the engine reports and clears the buffer;
    on a successful add the returned annotation is appended and the buffer
    replaced by the engine's; on a successful remove the list and the
    buffer the engine returns are taken over; on failure the state is
    unchanged. *)
Record Hook := {
  annotations : list Annotation;
  documentBytes : option Bytes
}.

Definition hookLoad (reported : list Annotation) : Hook :=
  {| annotations := reported; documentBytes := None |}.

Definition hookAdd (reply : AddReply) (h : Hook) : Hook :=
  match reply with
  | AddSettled (Some {| success := true; annotation := a;
                        mutatedBytes := b |}) =>
      {| annotations := annotations h ++ option_list a;
         documentBytes :=
           match b with Some _ => b | None => documentBytes h end |}
  | _ => h
  end.

Definition hookRemove (reply : RemoveReply) (h : Hook) : Hook :=
  match reply with
  | RemoveSettled r =>
      {| annotations := remaining r; documentBytes := Some (removedBytes r) |}
  | RemoveRejected _ => h
  end.

(** The component together with its hook. *)
Record World := {
  ui : State;
  hook : Hook
}.

(** What one user action leaves behind: how the handler ended, the hook,
    and the requests that reached the engine. *)
Record Outcome (Call : Type) := {
  ended : Completion State;
  hookAfter : Hook;
  sent : list Call
}.

Arguments ended {Call} o.
Arguments hookAfter {Call} o.
Arguments sent {Call} o.

(** A click on "Add Annotation" at time [now], the engine answering
    [engine]. *)
Definition add (now : N) (engine : AddAnnotationRequest → AddReply)
    (w : World) : Outcome AddAnnotationRequest :=
  let h := handleAddAnnotation now (ui w) in
  {| ended := settle engine h;
     hookAfter := foldr (λ req, hookAdd (engine req)) (hook w) (calls h);
     sent := calls h |}.

(** A click on the remove button of the annotation [annotationId]. *)
Definition remove (annotationId : string) (engine : string → RemoveReply)
    (w : World) : Outcome string :=
  let h := handleRemoveAnnotation annotationId (ui w) in
  {| ended := settle engine h;
     hookAfter := foldr (λ i, hookRemove (engine i)) (hook w) (calls h);
     sent := calls h |}.

(** A click on "Download Annotated". *)
Definition download (w : World) : option Download :=
  handleDownload (documentBytes (hook w)) (ui w).

(** *** What the render shows of this state *)

(** [{addError && (...)}]: the error box of the form. *)
Definition errorShown (st : State) : option string :=
  if Js.truthyOpt (addError st) then addError st else None.


(** [annotations.length === 0 && !showAddForm]: the line "No annotations
    found in this document." *)
Definition noAnnotationsShown (w : World) : bool :=
  (length (annotations (hook w)) =? 0)%nat && negb (showAddForm (ui w)).

End AnnotationViewer.

(** ** Vocabulary of the statements

    Notions the specification uses and the code does not name. *)

Module Vocabulary.

Import RevisionPanel.

(** A record of a kind the panel does not know. *)
Definition unknownKind (r : Revision) : Prop :=
  match revisionType r with
  | OtherType _ => True
  | _ => False
  end.

(** An entry of a property dictionary whose value passes the value
    filter. *)
Definition acceptable (entry : string * string) : Prop :=
  isValidPropertyValue entry.2 = true.

#[global] Instance acceptable_dec (entry : string * string) :
  Decision (acceptable entry).
Proof. unfold acceptable. apply _. Defined.

Definition keys (ps : Properties) : list string := ps.*1.

(** The entries of the two dictionaries of a revision; there are none
    when the revision has no format change or the dictionary is absent. *)
Definition oldEntries (r : Revision) : Properties :=
  default [] (formatChange r ≫= oldProperties).

Definition newEntries (r : Revision) : Properties :=
  default [] (formatChange r ≫= newProperties).

(** The dictionary without the property [key]. *)
Definition withoutKey (key : string) (ps : Properties) : Properties :=
  filter (λ entry, entry.1 ≠ key) ps.

(** The revision without the property [key] on either side. *)
Definition withoutProperty (key : string) (r : Revision) : Revision :=
  {| revisionType := revisionType r;
     author := author r;
     date := date r;
     text := text r;
     moveGroupId := moveGroupId r;
     isMoveSource := isMoveSource r;
     formatChange :=
       (λ fc, {| oldProperties := withoutKey key <$> oldProperties fc;
                 newProperties := withoutKey key <$> newProperties fc |})
         <$> formatChange r |}.

(** The value shown for a raw value, if the raw value may be shown. *)
Definition shown (raw : option string) : option string :=
  match raw with
  | Some v =>
      if isValidPropertyValue v then Some (formatPropertyValue v) else None
  | None => None
  end.

(** The entry of the diff for an entry of [oldProperties], paired with
    the value under the same key in [news]. *)
Definition pairedItem (news : Properties) (entry : string * string)
  : FormatChangeItem :=
  {| property := formatPropertyName entry.1;
     oldValue := Some (formatPropertyValue entry.2);
     newValue := shown (entryOf entry.1 news) |}.

(** The add-only entry of the diff for an entry of [newProperties]. *)
Definition addedItem (entry : string * string) : FormatChangeItem :=
  {| property := formatPropertyName entry.1;
     oldValue := None;
     newValue := Some (formatPropertyValue entry.2) |}.

(** The diff of two dictionaries, written without loops: the paired
    entries of the acceptable old entries, then the add-only entries of
    the acceptable new entries whose key has no paired entry. *)
Definition loopFree (olds news : Properties) : list FormatChangeItem :=
  (pairedItem news <$> filter acceptable olds)
  ++ (addedItem <$>
        filter (λ e, (e.1 ∉ keys (filter acceptable olds)) ∧ acceptable e)
               news).

(** No key has a filtered value in [olds] and an acceptable one in
    [news]. *)
Definition noneRevived (olds news : Properties) : Prop :=
  Forall (λ o, acceptable o ∨
               Forall (λ n, n.1 = o.1 → ¬ acceptable n) news) olds.

(** The property [key] has no acceptable value in [ps]. *)
Definition filteredIn (key : string) (ps : Properties) : Prop :=
  Forall (λ e, e.1 = key → ¬ acceptable e) ps.

(** The diff as the specification words its order, the value filter
    left aside: one entry per key of [oldProperties], each paired with the
    value under the same key in [newProperties] when present, then one
    add-only entry per key of [newProperties] that does not occur in
    [oldProperties]. *)
Definition diffAsWorded (r : Revision) : list FormatChangeItem :=
  ((λ e, {| property := formatPropertyName e.1;
            oldValue := Some (formatPropertyValue e.2);
            newValue := formatPropertyValue <$> entryOf e.1 (newEntries r) |})
     <$> oldEntries r)
  ++ (addedItem <$> filter (λ e, e.1 ∉ keys (oldEntries r)) (newEntries r)).

(** No entry of the diff is for the property [key]. *)
Definition excluded (key : string) (items : list FormatChangeItem) : Prop :=
  Forall (λ item, property item ≠ formatPropertyName key) items.

#[global] Instance filteredIn_dec (key : string) (ps : Properties) :
  Decision (filteredIn key ps).
Proof. unfold filteredIn. apply _. Defined.

#[global] Instance noneRevived_dec (olds news : Properties) :
  Decision (noneRevived olds news).
Proof. unfold noneRevived. apply _. Defined.

#[global] Instance excluded_dec (key : string)
    (items : list FormatChangeItem) : Decision (excluded key items).
Proof. unfold excluded. apply _. Defined.

(** *** Sample inputs *)

Definition revisionOf (kind : RevisionType) (source : option bool)
    (fc : option FormatChangeInfo) : Revision :=
  {| revisionType := kind;
     author := "A. Author";
     date := "2024-05-01T10:00:00Z";
     text := "some text";
     moveGroupId := match kind with Moved => Some 1%Z | _ => None end;
     isMoveSource := source;
     formatChange := fc |}.

Definition formatRevision (olds news : Properties) : Revision :=
  revisionOf FormatChanged None
    (Some {| oldProperties := Some olds; newProperties := Some news |}).

(** A bold flag whose new value is a fragment of markup. *)
Definition boldToMarkup : Revision :=
  formatRevision [("bold", "true")] [("bold", "<w:b/>")].

(** A bold flag whose old value is a fragment of markup. *)
Definition boldFromMarkup : Revision :=
  formatRevision [("bold", "<w:b/>")] [("bold", "true")].

(** A change of font size and of italics next to a raw dump of run
    properties on both sides. *)
Definition sizeAndItalic : Revision :=
  formatRevision
    [("bold", "true"); ("rPr", "<w:rPr/>"); ("fontSize", "12")]
    [("fontSize", "14"); ("italic", "true");
     ("rPr", "<w:rPr><w:i/></w:rPr>")].

(** *** Settings of the document viewer *)

(** The stored settings after one change has been merged in. *)
Definition mergeSettings (c : DocumentViewer.SettingsChange)
    (st : DocumentViewer.State) : DocumentViewer.State :=
  match c with
  | DocumentViewer.ChangeCommentMode mode =>
      DocumentViewer.setCommentMode mode st
  | DocumentViewer.ChangePaginationMode enabled =>
      DocumentViewer.setEnablePagination enabled st
  | DocumentViewer.ChangePaginationScale scale =>
      DocumentViewer.setPaginationScale scale st
  | DocumentViewer.ChangeShowPageNumbers checked =>
      DocumentViewer.setShowPageNumbers checked st
  | DocumentViewer.ChangePageTitle value =>
      DocumentViewer.setPageTitle value st
  | DocumentViewer.ChangeCssPrefix value =>
      DocumentViewer.setCssPrefix value st
  | DocumentViewer.ChangeCommentCssClassPrefix value =>
      DocumentViewer.setCommentCssClassPrefix value st
  | DocumentViewer.ChangeAdditionalCss value =>
      DocumentViewer.setAdditionalCss value st
  | DocumentViewer.ChangeFabricateClasses checked =>
      DocumentViewer.setFabricateClasses checked st
  end.

(** The settings whose change is converted at once; the others wait for
    the end of the edit, and the page-number flag is never converted. *)
Definition convertedAtOnce (c : DocumentViewer.SettingsChange) : bool :=
  match c with
  | DocumentViewer.ChangeCommentMode _
  | DocumentViewer.ChangePaginationMode _
  | DocumentViewer.ChangeFabricateClasses _ => true
  | _ => false
  end.

(** The conversion of the file [f] with the settings stored in [st]. *)
Definition conversionOf (f : Host.File) (st : DocumentViewer.State)
  : DocumentViewer.Convert :=
  {| DocumentViewer.convertFile := f;
     DocumentViewer.convertOptions := DocumentViewer.getConvertOptions st |}.

Definition sampleFile : Host.File :=
  {| Host.name := "contract.docx";
     Host.content := [Byte.x50; Byte.x4b; Byte.x03; Byte.x04] |}.

(** The document viewer once [sampleFile] has been picked. *)
Definition viewerWithFile : DocumentViewer.State :=
  Host.committed
    (DocumentViewer.handleFileChange (Some sampleFile) DocumentViewer.initial).

(** *** The annotation form *)

(** A field of the form that is absent or empty. *)
Definition missing (field : option string) : Prop :=
  field = None ∨ field = Some "".

#[global] Instance missing_dec (field : option string) :
  Decision (missing field).
Proof. unfold missing. apply _. Defined.

(** An engine that rejects every removal. *)
Definition refuseRemove (annotationId : string)
  : AnnotationViewer.RemoveReply :=
  AnnotationViewer.RemoveRejected (Host.ErrorObject "No such annotation").

Definition keyTerm : AnnotationViewer.Annotation :=
  {| AnnotationViewer.annotId := "annot-1714557600000";
     AnnotationViewer.annotLabelId := "key_term";
     AnnotationViewer.annotLabel := "Key Term";
     AnnotationViewer.annotColor := "#FFEB3B";
     AnnotationViewer.annotatedText := Some "liability";
     AnnotationViewer.annotAuthor := None;
     AnnotationViewer.annotCreated := None |}.

(** An engine that finds the text and returns [keyTerm]. *)
Definition acceptAdd (req : AnnotationViewer.AddAnnotationRequest)
  : AnnotationViewer.AddReply :=
  AnnotationViewer.AddSettled
    (Some {| AnnotationViewer.success := true;
             AnnotationViewer.annotation := Some keyTerm;
             AnnotationViewer.mutatedBytes := Some [Byte.x50; Byte.x4b] |}).

(** The annotation viewer once [sampleFile] has been picked and the form
    opened, with nothing typed yet. *)
Definition formOpened : AnnotationViewer.World :=
  {| AnnotationViewer.ui :=
       AnnotationViewer.setShowAddForm true
         (AnnotationViewer.handleFileChange (Some sampleFile)
            AnnotationViewer.initial);
     AnnotationViewer.hook := AnnotationViewer.hookLoad [] |}.

(** The same with "Key Term" and "liability" typed in. *)
Definition formFilled : AnnotationViewer.World :=
  {| AnnotationViewer.ui :=
       AnnotationViewer.onInput (AnnotationViewer.TypeSearchText "liability")
         (AnnotationViewer.onInput (AnnotationViewer.TypeLabel "Key Term")
            (AnnotationViewer.ui formOpened));
     AnnotationViewer.hook := AnnotationViewer.hook formOpened |}.

(** The same with "-5" typed into the occurrence field. *)
Definition formMinusFive : AnnotationViewer.World :=
  {| AnnotationViewer.ui :=
       AnnotationViewer.onInput (AnnotationViewer.TypeOccurrence "-5")
         (AnnotationViewer.ui formFilled);
     AnnotationViewer.hook := AnnotationViewer.hook formFilled |}.

(** A file whose name has ".docx" in it twice, after one annotation has
    been added. *)
Definition twiceDocx : AnnotationViewer.World :=
  {| AnnotationViewer.ui :=
       AnnotationViewer.handleFileChange
         (Some {| Host.name := "notes.docx.final.docx";
                  Host.content := [Byte.x50; Byte.x4b; Byte.x03; Byte.x04] |})
         AnnotationViewer.initial;
     AnnotationViewer.hook :=
       AnnotationViewer.hookAdd (acceptAdd
         (AnnotationViewer.buildRequest 1714557600000
            (AnnotationViewer.newAnnotation (AnnotationViewer.ui formFilled))))
         (AnnotationViewer.hookLoad []) |}.

(** The form keeps a colour, an empty label id and a non-zero
    occurrence, whatever the user does. *)
Definition draftKept (d : AnnotationViewer.Draft) : Prop :=
  AnnotationViewer.draftColor d ≠ None
  ∧ AnnotationViewer.draftLabelId d = Some ""
  ∧ ∃ n, AnnotationViewer.draftOccurrence d = Some n ∧ n ≠ 0%Z.

(** What the user can do to the annotation viewer.  A click that
    awaits the engine comes with the engine's answer. *)
Inductive Action :=
| PickFile (picked : option Host.File)
| ClearFile
| OpenForm
| CancelForm
| TypeInto (input : AnnotationViewer.FormInput)
| ClickAdd (now : N) (reply : AnnotationViewer.AddReply)
| ClickRemove (annotationId : string) (reply : AnnotationViewer.RemoveReply).

Definition act (a : Action) (st : AnnotationViewer.State)
  : AnnotationViewer.State :=
  match a with
  | PickFile picked => AnnotationViewer.handleFileChange picked st
  | ClearFile => AnnotationViewer.handleClear st
  | OpenForm => AnnotationViewer.setShowAddForm true st
  | CancelForm =>
      AnnotationViewer.setAddError None
        (AnnotationViewer.setShowAddForm false st)
  | TypeInto input => AnnotationViewer.onInput input st
  | ClickAdd now reply =>
      Host.finalState
        (Host.settle (λ _, reply) (AnnotationViewer.handleAddAnnotation now st))
  | ClickRemove annotationId reply =>
      Host.finalState
        (Host.settle (λ _, reply)
           (AnnotationViewer.handleRemoveAnnotation annotationId st))
  end.

(** The states of the component after any number of actions. *)
Inductive reachable : AnnotationViewer.State → Prop :=
| reachable_initial : reachable AnnotationViewer.initial
| reachable_act (a : Action) (st : AnnotationViewer.State) :
    reachable st → reachable (act a st).

#[global] Instance unknownKind_dec (r : RevisionPanel.Revision) :
  Decision (unknownKind r).
Proof. unfold unknownKind. destruct (RevisionPanel.revisionType r); apply _. Defined.

(** The records an option of the filter is meant to list. *)
Definition listedUnder (flt : RevisionPanel.FilterType)
    (r : RevisionPanel.Revision) : Prop :=
  match flt with
  | RevisionPanel.FilterAll => True
  | RevisionPanel.FilterInsertions =>
      RevisionPanel.revisionType r = RevisionPanel.Inserted
  | RevisionPanel.FilterDeletions =>
      RevisionPanel.revisionType r = RevisionPanel.Deleted
  | RevisionPanel.FilterMoves =>
      RevisionPanel.revisionType r = RevisionPanel.Moved
  | RevisionPanel.FilterFormatting =>
      RevisionPanel.revisionType r = RevisionPanel.FormatChanged
  end.

(** A string that does not begin, or does not end, with white space. *)
Definition startsClean (s : string) : Prop :=
  match s with
  | "" => True
  | String c _ => Js.isSpace c = false
  end.

Fixpoint endsClean (s : string) : Prop :=
  match s with
  | "" => True
  | String c "" => Js.isSpace c = false
  | String _ t => endsClean t
  end.

(** The five records used before, in document order. *)
Definition mixedRevisions : list RevisionPanel.Revision :=
  [ revisionOf RevisionPanel.Deleted None None;
    revisionOf RevisionPanel.Moved (Some true) None;
    revisionOf RevisionPanel.Inserted None None;
    revisionOf RevisionPanel.Moved (Some false) None;
    sizeAndItalic ].

(** *** Sessions of the document viewer *)

(** Everything the user can do to the document viewer. *)
Inductive ViewerEvent :=
| PickDocument (picked : option Host.File)
| ClearDocument
| Options (e : DocumentViewer.OptionsEvent).

Definition viewerStep (e : ViewerEvent) (st : DocumentViewer.State)
  : DocumentViewer.Handler :=
  match e with
  | PickDocument picked => DocumentViewer.handleFileChange picked st
  | ClearDocument => Host.Done (DocumentViewer.handleClear st)
  | Options o => DocumentViewer.onEvent o st
  end.

(** The state after a sequence of events, and the conversions asked of
    the engine, in order. *)
Fixpoint viewerRun (events : list ViewerEvent) (st : DocumentViewer.State)
  : DocumentViewer.State * list DocumentViewer.Convert :=
  match events with
  | [] => (st, [])
  | e :: rest =>
      let h := viewerStep e st in
      let after := viewerRun rest (Host.committed h) in
      (after.1, Host.calls h ++ after.2)
  end.

(** The file picked last and not cleared since. *)
Definition lastPicked (events : list ViewerEvent)
    (loaded : option Host.File) : option Host.File :=
  foldl (λ file e,
           match e with
           | PickDocument (Some f) => Some f
           | PickDocument None => file
           | ClearDocument => None
           | Options _ => file
           end) loaded events.

(** *** Outcomes of an add *)

(** The engine reports the annotation as added. *)
Definition succeeded (reply : AnnotationViewer.AddReply) : Prop :=
  ∃ r, reply = AnnotationViewer.AddSettled (Some r)
       ∧ AnnotationViewer.success r = true.

(** The form with "Key Term" and "liability" typed in, before any file
    is involved. *)
Definition typedKeyTerm : AnnotationViewer.State :=
  act (TypeInto (AnnotationViewer.TypeSearchText "liability"))
    (act (TypeInto (AnnotationViewer.TypeLabel "Key Term"))
       AnnotationViewer.initial).


(** A string of ASCII characters. *)
Definition asciiOnly (s : string) : Prop :=
  Forall (λ c, (Js.code c <? 128)%nat = true) (list_ascii_of_string s).

#[global] Instance asciiOnly_dec (s : string) : Decision (asciiOnly s).
Proof. unfold asciiOnly. apply _. Defined.

End Vocabulary.

(** * Properties *)

(** ** The revision statistics *)

Section RevisionStatistics.

Import RevisionPanel Vocabulary.

(** Counting with a guard does not depend on the order of the records. *)
Lemma count_Permutation (g : Revision → bool) (l l' : list Revision) :
  l ≡ₚ l' →
  length (filter (λ r, g r = true) l) = length (filter (λ r, g r = true) l').
Proof. intros Hp. by rewrite Hp. Qed.

Lemma count_app (g : Revision → bool) (l l' : list Revision) :
  length (filter (λ r, g r = true) (l ++ l'))
  = (length (filter (λ r, g r = true) l)
     + length (filter (λ r, g r = true) l'))%nat.
Proof. by rewrite filter_app, length_app. Qed.

Lemma count_all (g : Revision → bool) (l : list Revision) :
  Forall (λ r, g r = true) l →
  length (filter (λ r, g r = true) l) = length l.
Proof.
  induction 1 as [|r l Hr _ IH]; [done|].
  rewrite filter_cons_True by done. simpl. by rewrite IH.
Qed.

Lemma count_none (g : Revision → bool) (l : list Revision) :
  Forall (λ r, g r = false) l →
  length (filter (λ r, g r = true) l) = 0%nat.
Proof.
  induction 1 as [|r l Hr _ IH]; [done|].
  rewrite filter_cons_False; [done | congruence].
Qed.

Local Ltac by_kind :=
  eapply Forall_impl; [eassumption|];
  let r := fresh "r" in
  let H := fresh "H" in
  intros r H; unfold unknownKind in H;
  unfold isInsertion, isDeletion, isMove, isFormatChange;
  destruct (revisionType r); done.

(** C2. A list made, in any order, of [n] insertion records, [m] deletion
    records, [p] move records and [q] format-change records (and possibly
    records of a kind the panel does not know) has the statistics
    [insertions = n], [deletions = m], [moves = p], [formatting = q].
    Nothing is asked of the move records beyond their kind: a move source
    and a move destination count one each, so a pair counts two. *)
Theorem stats_counts_each_kind
    (revisions ins dels movs fmts others : list Revision) :
  revisions ≡ₚ ins ++ dels ++ movs ++ fmts ++ others →
  Forall (λ r, revisionType r = Inserted) ins →
  Forall (λ r, revisionType r = Deleted) dels →
  Forall (λ r, revisionType r = Moved) movs →
  Forall (λ r, revisionType r = FormatChanged) fmts →
  Forall unknownKind others →
  stats revisions =
    {| total := length revisions;
       insertions := length ins;
       deletions := length dels;
       moves := length movs;
       formatting := length fmts |}.
Proof.
  intros Hp Hi Hd Hm Hf Ho. unfold stats.
  rewrite !(count_Permutation _ _ _ Hp), !count_app.
  f_equal.
  - rewrite (count_all isInsertion ins); [|by_kind].
    rewrite !count_none; [lia | by_kind ..].
  - rewrite (count_all isDeletion dels); [|by_kind].
    rewrite !count_none; [lia | by_kind ..].
  - rewrite (count_all isMove movs); [|by_kind].
    rewrite !count_none; [lia | by_kind ..].
  - rewrite (count_all isFormatChange fmts); [|by_kind].
    rewrite !count_none; [lia | by_kind ..].
Qed.

(** A deletion, a move with its source and its destination, an insertion
    and a format change, in document order: the pair of moves counts 2. *)
Lemma stats_counts_each_kind_witness :
  stats [ revisionOf Deleted None None;
          revisionOf Moved (Some true) None;
          revisionOf Inserted None None;
          revisionOf Moved (Some false) None;
          sizeAndItalic ]
  = {| total := 5; insertions := 1; deletions := 1; moves := 2;
       formatting := 1 |}.
Proof.
  apply (stats_counts_each_kind
           [ revisionOf Deleted None None;
             revisionOf Moved (Some true) None;
             revisionOf Inserted None None;
             revisionOf Moved (Some false) None;
             sizeAndItalic ]
           [revisionOf Inserted None None]
           [revisionOf Deleted None None]
           [revisionOf Moved (Some true) None;
            revisionOf Moved (Some false) None]
           [sizeAndItalic]
           []).
  - simpl.
    etransitivity; [apply perm_skip, perm_swap|].
    apply perm_swap.
  - repeat constructor.
  - repeat constructor.
  - repeat constructor.
  - repeat constructor.
  - constructor.
Defined.

End RevisionStatistics.

(** ** The diff of formatting properties *)

Section FormatDiff.

Import RevisionPanel Vocabulary.

Lemma truthy_of_valid (v : string) :
  isValidPropertyValue v = true → Js.truthy v = true.
Proof. unfold isValidPropertyValue. by destruct (Js.truthy v). Qed.

Lemma lookupProperty_entryOf (props : option Properties) (key : string) :
  lookupProperty props key = entryOf key (default [] props).
Proof. by destruct props. Qed.

Lemma entryOf_elem (key v : string) (ps : Properties) :
  entryOf key ps = Some v → (key, v) ∈ ps.
Proof.
  induction ps as [|[k w] ps IH]; simpl; [done|].
  destruct (String.eqb k key) eqn:Hk.
  - apply String.eqb_eq in Hk as ->. intros [= ->]. left.
  - intros H. right. auto.
Qed.

Lemma entryOf_withoutKey (key k : string) (ps : Properties) :
  k ≠ key → entryOf k (withoutKey key ps) = entryOf k ps.
Proof.
  intros Hne. unfold withoutKey.
  induction ps as [|[k' w] ps IH]; simpl; [done|].
  destruct (decide (k' = key)) as [->|Hk'].
  - rewrite filter_cons_False by (simpl; tauto).
    destruct (String.eqb key k) eqn:E; [|done].
    apply String.eqb_eq in E. congruence.
  - rewrite filter_cons_True by done. simpl. by rewrite IH.
Qed.

(** The first loop appends one paired entry per acceptable entry and
    records its key. *)
Lemma oldPass_fold (newProps : option Properties) (ps : Properties)
    (st : Locals) :
  fold_left (oldPass newProps) ps st =
    {| changes :=
         changes st ++
         (pairedItem (default [] newProps) <$> filter acceptable ps);
       processedKeys :=
         list_to_set (keys (filter acceptable ps)) ∪ processedKeys st |}.
Proof.
  revert st. induction ps as [|[k v] ps IH]; intros [cs pk]; simpl.
  - rewrite app_nil_r. f_equal. by rewrite (left_id_L ∅ (∪)).
  - rewrite IH. simpl.
    destruct (isValidPropertyValue v) eqn:Hv; simpl.
    + rewrite !filter_cons_True by done. simpl.
      rewrite <- app_assoc. simpl.
      f_equal; [|by rewrite (assoc_L (∪)), (comm_L (∪) _ {[k]})].
      f_equal. f_equal. unfold pairedItem, shown. simpl. f_equal.
      rewrite lookupProperty_entryOf.
      destruct (entryOf k (default [] newProps)) as [nv|]; [|done].
      destruct (isValidPropertyValue nv) eqn:Hnv.
      * by rewrite (truthy_of_valid _ Hnv).
      * by rewrite andb_false_r.
    + rewrite !filter_cons_False by (unfold acceptable; simpl; congruence).
      done.
Qed.

(** The second loop appends one add-only entry per acceptable entry
    whose key the first loop has not recorded. *)
Lemma newPass_fold (ps : Properties) (st : Locals) :
  fold_left newPass ps st =
    {| changes :=
         changes st ++
         (addedItem <$>
            filter (λ e, (e.1 ∉ processedKeys st) ∧ acceptable e) ps);
       processedKeys := processedKeys st |}.
Proof.
  revert st. induction ps as [|[k v] ps IH]; intros [cs pk]; simpl.
  - by rewrite app_nil_r.
  - rewrite IH. case_bool_decide as Hk; simpl.
    + rewrite filter_cons_False by (simpl; tauto). done.
    + destruct (isValidPropertyValue v) eqn:Hv; simpl.
      * rewrite filter_cons_True by done. simpl.
        by rewrite <- app_assoc.
      * rewrite filter_cons_False; [done|].
        unfold acceptable. simpl. rewrite Hv. intros [_ ?]. done.
Qed.

(** The two loops together. *)
Lemma diffProperties_loopFree (fc : FormatChangeInfo) :
  diffProperties fc
  = loopFree (default [] (oldProperties fc)) (default [] (newProperties fc)).
Proof.
  assert (Hset : ∀ (l : list string) (k : string),
            k ∉ (list_to_set l ∪ ∅ : gset string) ↔ k ∉ l).
  { intros l k. by rewrite (right_id_L ∅ (∪)), elem_of_list_to_set. }
  destruct fc as [[olds|] [news|]]; unfold diffProperties, loopFree; simpl.
  - rewrite newPass_fold, oldPass_fold. simpl. f_equal. f_equal.
    apply list_filter_iff. intros e. by rewrite Hset.
  - rewrite oldPass_fold. simpl. by rewrite app_nil_r.
  - rewrite newPass_fold. simpl. f_equal.
    apply list_filter_iff. intros e. simpl.
    split; (intros [_ ?]; split; [|done]);
      [apply not_elem_of_nil | apply not_elem_of_empty].
  - done.
Qed.

(** The whole of [getFormatChanges], loop-free. *)
Lemma getFormatChanges_loopFree (r : Revision) :
  getFormatChanges r = loopFree (oldEntries r) (newEntries r).
Proof.
  unfold getFormatChanges, oldEntries, newEntries.
  destruct (formatChange r) as [fc|]; simpl; [|done].
  apply diffProperties_loopFree.
Qed.

(** C5. The diff of [{bold: "true"}] against [{bold: "false"}] is the one
    entry [Bold: Yes → No]: the name is title-cased and the two boolean
    values are shown as Yes and No. *)
Theorem diff_bold_true_false (who when what : string) :
  getFormatChanges
    {| revisionType := FormatChanged;
       author := who; date := when; text := what;
       moveGroupId := None; isMoveSource := None;
       formatChange :=
         Some {| oldProperties := Some [("bold", "true")];
                 newProperties := Some [("bold", "false")] |} |}
  = [ {| property := "Bold"; oldValue := Some "Yes";
         newValue := Some "No" |} ].
Proof. reflexivity. Qed.

(** *** What the loop-free diff contains *)

Section LoopFree.

Variables olds news : Properties.

(** Every entry is for some key, and every value it shows is the
    rendering of a raw value of that key that passes the filter. *)
Lemma loopFree_provenance (item : FormatChangeItem) :
  item ∈ loopFree olds news →
  ∃ key,
    property item = formatPropertyName key
    ∧ (∀ s, oldValue item = Some s →
         ∃ v, (key, v) ∈ olds ∧ acceptable (key, v)
              ∧ s = formatPropertyValue v)
    ∧ (∀ s, newValue item = Some s →
         ∃ v, (key, v) ∈ news ∧ acceptable (key, v)
              ∧ s = formatPropertyValue v).
Proof.
  unfold loopFree. rewrite elem_of_app, !list_elem_of_fmap.
  intros [[[k v] [-> He]]|[[k v] [-> He]]];
    apply list_elem_of_filter in He; exists k; simpl.
  - destruct He as [Hv He]. split; [done|]. split.
    + intros s [= <-]. by exists v.
    + intros s. unfold shown.
      destruct (entryOf k news) as [nv|] eqn:Hnv; [|done].
      destruct (isValidPropertyValue nv) eqn:Hok; [|done].
      intros [= <-]. exists nv. eauto using entryOf_elem.
  - destruct He as [[_ Hv] He]. split; [done|]. split; [done|].
    intros s [= <-]. by exists v.
Qed.

(** An acceptable old entry has its paired entry in the diff. *)
Lemma loopFree_paired (e : string * string) :
  e ∈ olds → acceptable e → pairedItem news e ∈ loopFree olds news.
Proof.
  intros He Hok. unfold loopFree. apply elem_of_app. left.
  apply list_elem_of_fmap. exists e. split; [done|].
  by apply list_elem_of_filter.
Qed.

(** An acceptable new entry under a key that [olds] does not have has
    its add-only entry in the diff. *)
Lemma loopFree_added (e : string * string) :
  e ∈ news → acceptable e → e.1 ∉ keys olds →
  addedItem e ∈ loopFree olds news.
Proof.
  intros He Hok Hk. unfold loopFree. apply elem_of_app. right.
  apply list_elem_of_fmap. exists e. split; [done|].
  apply list_elem_of_filter. split; [|done]. split; [|done].
  intros Hin. apply Hk. unfold keys in *.
  apply list_elem_of_fmap in Hin as [o [-> Ho]].
  apply list_elem_of_fmap. exists o. split; [done|].
  by apply list_elem_of_filter in Ho as [_ ?].
Qed.

Lemma filter_acceptable_withoutKey (key : string) (ps : Properties) :
  filteredIn key ps →
  filter acceptable (withoutKey key ps) = filter acceptable ps.
Proof.
  unfold filteredIn, withoutKey.
  induction 1 as [|[k v] ps' Hkv _ IH]; [done|]. simpl in Hkv.
  destruct (decide (k = key)) as [->|Hne].
  - rewrite (filter_cons_False (λ e, e.1 ≠ key)) by (simpl; tauto).
    rewrite (filter_cons_False acceptable) by auto. done.
  - rewrite (filter_cons_True (λ e, e.1 ≠ key)) by done.
    destruct (decide (acceptable (k, v))).
    + rewrite !(filter_cons_True acceptable) by done. by rewrite IH.
    + rewrite !(filter_cons_False acceptable) by done. done.
Qed.

Lemma acceptable_key_ne (key : string) (ps : Properties)
    (e : string * string) :
  filteredIn key ps → e ∈ filter acceptable ps → e.1 ≠ key.
Proof.
  intros Hf [Hok He]%list_elem_of_filter Heq.
  unfold filteredIn in Hf. rewrite Forall_forall in Hf.
  by apply (Hf e He Heq).
Qed.

(** A property with no acceptable value on either side leaves no trace. *)
Lemma loopFree_withoutKey (key : string) :
  filteredIn key olds → filteredIn key news →
  loopFree olds news = loopFree (withoutKey key olds) (withoutKey key news).
Proof.
  intros Ho Hn. unfold loopFree.
  rewrite (filter_acceptable_withoutKey key olds Ho). f_equal.
  - apply Forall_fmap_ext, Forall_forall. intros e He.
    unfold pairedItem. f_equal. f_equal.
    symmetry. apply entryOf_withoutKey.
    by apply (acceptable_key_ne key olds).
  - f_equal.
    set (unpaired := λ e : string * string,
                       e.1 ∉ keys (filter acceptable olds)).
    rewrite <- (list_filter_filter unpaired acceptable news).
    rewrite <- (list_filter_filter unpaired acceptable (withoutKey key news)).
    by rewrite (filter_acceptable_withoutKey key news Hn).
Qed.

(** Two tests that agree on the members of a list select the same
    members. *)
Lemma filter_agree {A : Type} (P Q : A → Prop)
    `{!∀ x, Decision (P x), !∀ x, Decision (Q x)} (l : list A) :
  (∀ x, x ∈ l → P x ↔ Q x) → filter P l = filter Q l.
Proof.
  induction l as [|x l IH]; intros Hpq; [done|].
  assert (Hx : P x ↔ Q x) by (apply Hpq; left).
  assert (Hl : filter P l = filter Q l).
  { apply IH. intros y Hy. apply Hpq. by right. }
  destruct (decide (P x)) as [HP|HP].
  - rewrite (filter_cons_True P), (filter_cons_True Q) by tauto.
    by rewrite Hl.
  - rewrite (filter_cons_False P), (filter_cons_False Q) by tauto.
    done.
Qed.

(** When no key is revived, "has no paired entry" is "does not occur in
    [olds]". *)
Lemma loopFree_order :
  noneRevived olds news →
  loopFree olds news =
    (pairedItem news <$> filter acceptable olds)
    ++ (addedItem <$>
          filter (λ e, (e.1 ∉ keys olds) ∧ acceptable e) news).
Proof.
  intros Hnr. unfold loopFree. f_equal. f_equal.
  apply filter_agree. intros e He.
  split; intros [Hk Hok]; (split; [|done]); intros Hin; apply Hk.
  - unfold keys in *. apply list_elem_of_fmap in Hin as [o [Heq Ho]].
    apply list_elem_of_fmap. exists o. split; [done|].
    apply list_elem_of_filter. split; [|done].
    unfold noneRevived in Hnr. rewrite Forall_forall in Hnr.
    destruct (Hnr o Ho) as [|Hf]; [done|].
    rewrite Forall_forall in Hf. by destruct (Hf e He Heq).
  - unfold keys in *. apply list_elem_of_fmap in Hin as [o [-> Ho]].
    apply list_elem_of_fmap. exists o. split; [done|].
    by apply list_elem_of_filter in Ho as [_ ?].
Qed.

End LoopFree.

Lemma oldEntries_withoutProperty (key : string) (r : Revision) :
  oldEntries (withoutProperty key r) = withoutKey key (oldEntries r).
Proof.
  unfold oldEntries. simpl.
  by destruct (formatChange r) as [[[?|] ?]|].
Qed.

Lemma newEntries_withoutProperty (key : string) (r : Revision) :
  newEntries (withoutProperty key r) = withoutKey key (newEntries r).
Proof.
  unfold newEntries. simpl.
  by destruct (formatChange r) as [[? [?|]]|].
Qed.

(** C3 as worded fails: the new value of [bold] is filtered, and [bold]
    keeps its entry, shown as removed. *)
Lemma filtered_new_value_keeps_entry :
  ("bold", "<w:b/>") ∈ newEntries boldToMarkup
  ∧ isValidPropertyValue "<w:b/>" = false
  ∧ getFormatChanges boldToMarkup
    = [ {| property := "Bold"; oldValue := Some "Yes"; newValue := None |} ]
  ∧ ¬ excluded "bold" (getFormatChanges boldToMarkup).
Proof.
  split; [left|]. split; [done|]. split; [done|].
  by apply (bool_decide_unpack _).
Qed.

(** C3, as the code has it.  The filter acts on values, one dictionary
    at a time.  Every value the diff shows is the rendering of a raw
    value that passes the filter (non-empty, no "<", "xmlns" or "Unid="
    in it, at most 100 characters); an old value that passes keeps its
    entry, in which a filtered new value is shown as absent; a new value
    that passes under a key [oldProperties] does not have keeps its
    add-only entry; and a property whose values are filtered on both
    sides is excluded entirely: the diff is the one of the revision
    without that property. *)
Theorem diff_shows_no_filtered_value (r : Revision) :
  (∀ item, item ∈ getFormatChanges r →
     ∃ key,
       property item = formatPropertyName key
       ∧ (∀ s, oldValue item = Some s →
            ∃ v, (key, v) ∈ oldEntries r ∧ acceptable (key, v)
                 ∧ s = formatPropertyValue v)
       ∧ (∀ s, newValue item = Some s →
            ∃ v, (key, v) ∈ newEntries r ∧ acceptable (key, v)
                 ∧ s = formatPropertyValue v))
  ∧ (∀ e, e ∈ oldEntries r → acceptable e →
       pairedItem (newEntries r) e ∈ getFormatChanges r)
  ∧ (∀ e, e ∈ newEntries r → acceptable e → e.1 ∉ keys (oldEntries r) →
       addedItem e ∈ getFormatChanges r)
  ∧ (∀ key,
       filteredIn key (oldEntries r) → filteredIn key (newEntries r) →
       getFormatChanges r = getFormatChanges (withoutProperty key r)).
Proof.
  rewrite getFormatChanges_loopFree.
  split; [apply loopFree_provenance|].
  split; [apply loopFree_paired|].
  split; [apply loopFree_added|].
  intros key Ho Hn. rewrite getFormatChanges_loopFree.
  rewrite oldEntries_withoutProperty, newEntries_withoutProperty.
  by apply loopFree_withoutKey.
Qed.

(** In [sizeAndItalic] the raw dump [rPr] is filtered on both sides and
    leaves no trace, and the acceptable old value of [bold] keeps its
    entry. *)
Lemma diff_shows_no_filtered_value_witness :
  (filteredIn "rPr" (oldEntries sizeAndItalic)
   ∧ filteredIn "rPr" (newEntries sizeAndItalic)
   ∧ getFormatChanges sizeAndItalic
     = getFormatChanges (withoutProperty "rPr" sizeAndItalic))
  ∧ (("bold", "true") ∈ oldEntries sizeAndItalic
     ∧ acceptable ("bold", "true")
     ∧ {| property := "Bold"; oldValue := Some "Yes"; newValue := None |}
       ∈ getFormatChanges sizeAndItalic).
Proof.
  pose proof (diff_shows_no_filtered_value sizeAndItalic)
    as (_ & Hpaired & _ & Hwithout).
  assert (Ho : filteredIn "rPr" (oldEntries sizeAndItalic))
    by (by apply (bool_decide_unpack _)).
  assert (Hn : filteredIn "rPr" (newEntries sizeAndItalic))
    by (by apply (bool_decide_unpack _)).
  assert (Hb : ("bold", "true") ∈ oldEntries sizeAndItalic) by left.
  assert (Hok : acceptable ("bold", "true")) by reflexivity.
  split.
  - split; [exact Ho|]. split; [exact Hn|]. exact (Hwithout "rPr" Ho Hn).
  - split; [exact Hb|]. split; [exact Hok|].
    exact (Hpaired ("bold", "true") Hb Hok).
Defined.

(** C4 as worded fails: [bold] occurs in [oldProperties], its old value
    is filtered, and the diff is one add-only entry for it. *)
Lemma filtered_old_value_added_anew :
  "bold" ∈ keys (oldEntries boldFromMarkup)
  ∧ getFormatChanges boldFromMarkup
    = [ {| property := "Bold"; oldValue := None; newValue := Some "Yes" |} ]
  ∧ getFormatChanges boldFromMarkup ≠ diffAsWorded boldFromMarkup.
Proof. split; [left|]. split; [done|]. discriminate. Qed.

(** C4, as the code has it.  When no key has a filtered value in
    [oldProperties] and an acceptable one in [newProperties], the diff is:
    first one entry per key of [oldProperties] whose value passes the
    filter, in iteration order, each paired with the value under the same
    key in [newProperties] when that value is present and passes the
    filter; then one add-only entry per key of [newProperties] that does
    not occur in [oldProperties] and whose value passes the filter, in
    iteration order. *)
Theorem diff_order (r : Revision) :
  noneRevived (oldEntries r) (newEntries r) →
  getFormatChanges r =
    (pairedItem (newEntries r) <$> filter acceptable (oldEntries r))
    ++ (addedItem <$>
          filter (λ e, (e.1 ∉ keys (oldEntries r)) ∧ acceptable e)
                 (newEntries r)).
Proof.
  intros Hnr. rewrite getFormatChanges_loopFree. by apply loopFree_order.
Qed.

Lemma diff_order_witness :
  noneRevived (oldEntries sizeAndItalic) (newEntries sizeAndItalic)
  ∧ getFormatChanges sizeAndItalic
    = [ {| property := "Bold"; oldValue := Some "Yes"; newValue := None |};
        {| property := "Font Size"; oldValue := Some "12";
           newValue := Some "14" |};
        {| property := "Italic"; oldValue := None;
           newValue := Some "Yes" |} ].
Proof.
  assert (H : noneRevived (oldEntries sizeAndItalic)
                          (newEntries sizeAndItalic))
    by (by apply (bool_decide_unpack _)).
  split; [exact H|].
  exact (diff_order sizeAndItalic H).
Defined.

End FormatDiff.

(** ** Settings changes and conversions *)

Section SettingsAndConversion.

Import Host DocumentViewer Vocabulary.

(** Merging a change leaves the loaded file as it is. *)
Lemma mergeSettings_pendingFile (c : SettingsChange) (st : State) :
  pendingFile (mergeSettings c st) = pendingFile st.
Proof. by destruct c. Qed.

(** The handlers that convert at once send the options of the merged
    settings, although they are built from the settings of the render
    the handler belongs to. *)
Lemma commentMode_options (mode : CommentMode) (st : State) :
  withCommentRenderMode (getCommentRenderMode mode) (getConvertOptions st)
  = getConvertOptions (setCommentMode mode st).
Proof. reflexivity. Qed.

Lemma fabricateClasses_options (checked : bool) (st : State) :
  withFabricateClasses checked (getConvertOptions st)
  = getConvertOptions (setFabricateClasses checked st).
Proof. reflexivity. Qed.

(** C1 as worded fails: with a file loaded, unticking "Show page numbers"
    updates the stored flag and converts nothing. *)
Lemma page_numbers_change_converts_nothing :
  pendingFile viewerWithFile = Some sampleFile
  ∧ calls (onChange (ChangeShowPageNumbers false) viewerWithFile) = []
  ∧ showPageNumbers
      (committed (onChange (ChangeShowPageNumbers false) viewerWithFile))
    = false
  ∧ ¬ (∀ c st, calls (onChange c st) ≠ [] ↔ pendingFile st ≠ None).
Proof.
  split; [done|]. split; [done|]. split; [done|].
  intros H.
  destruct (H (ChangeShowPageNumbers false) viewerWithFile) as [_ H'].
  by apply H'.
Qed.

(** C1, as the code has it.  A change is always merged into the stored
    settings.  Without a file nothing is converted, whatever the event.
    With a file, a change of the comment mode, of the pagination mode or
    of the class fabrication is converted at once, by one call that
    carries the merged settings; a change of another setting converts
    nothing by itself, and the end of the edit converts the file with the
    settings stored by then; the page-number flag is not part of what is
    converted. *)
Theorem conversion_follows_settings (st : State) :
  (∀ c,
     committed (onChange c st) = mergeSettings c st
     ∧ calls (onChange c st) =
         match pendingFile st with
         | Some f =>
             if convertedAtOnce c
             then [conversionOf f (mergeSettings c st)] else []
         | None => []
         end
     ∧ calls (onEvent EditEnded (mergeSettings c st)) =
         match pendingFile st with
         | Some f => [conversionOf f (mergeSettings c st)]
         | None => []
         end)
  ∧ committed (onEvent EditEnded st) = st
  ∧ (∀ e, pendingFile st = None → calls (onEvent e st) = [])
  ∧ (∀ checked,
       getConvertOptions (mergeSettings (ChangeShowPageNumbers checked) st)
       = getConvertOptions st).
Proof.
  split; [|split; [|split]].
  - intros c. split; [|split].
    + destruct c; simpl; try done;
        unfold handleCommentModeChange, handlePaginationToggle,
          fabricateClassesChanged; by destruct (pendingFile st).
    + destruct c; simpl;
        unfold handleCommentModeChange, handlePaginationToggle,
          fabricateClassesChanged; by destruct (pendingFile st).
    + simpl. unfold reconvert. rewrite mergeSettings_pendingFile.
      by destruct (pendingFile st).
  - simpl. unfold reconvert. by destruct (pendingFile st).
  - intros e Hnone. destruct e as [c|]; simpl.
    + destruct c; simpl; try done;
        unfold handleCommentModeChange, handlePaginationToggle,
          fabricateClassesChanged; by rewrite Hnone.
    + unfold reconvert. by rewrite Hnone.
  - done.
Qed.

(** With [sampleFile] loaded: ticking "Enable pagination" converts at
    once, typing a page title does not, and leaving the field does. *)
Lemma conversion_follows_settings_witness :
  pendingFile DocumentViewer.initial = None
  ∧ calls (onEvent (Changed (ChangePaginationMode true))
             DocumentViewer.initial) = []
  ∧ calls (onChange (ChangePaginationMode true) viewerWithFile)
    = [conversionOf sampleFile
         (mergeSettings (ChangePaginationMode true) viewerWithFile)]
  ∧ calls (onChange (ChangePageTitle "Lease") viewerWithFile) = []
  ∧ calls (onEvent EditEnded
             (mergeSettings (ChangePageTitle "Lease") viewerWithFile))
    = [conversionOf sampleFile
         (mergeSettings (ChangePageTitle "Lease") viewerWithFile)].
Proof.
  pose proof (conversion_follows_settings DocumentViewer.initial)
    as (_ & _ & Hnone & _).
  pose proof (conversion_follows_settings viewerWithFile) as (Hc & _).
  split; [done|]. split; [by apply Hnone|].
  split; [apply (Hc (ChangePaginationMode true))|].
  split; [apply (Hc (ChangePageTitle "Lease"))|].
  apply (Hc (ChangePageTitle "Lease")).
Defined.

End SettingsAndConversion.

(** ** Adding, removing and downloading annotations *)

Section AnnotationMutations.

Import Host AnnotationViewer Vocabulary.

Lemma truthyOpt_missing (field : option string) :
  Js.truthyOpt field = false ↔ missing field.
Proof.
  unfold missing. destruct field as [[|c s]|]; simpl; split;
    intros H; try done; eauto; by destruct H.
Qed.


(** C6. When the label or the search text is missing, the click on "Add
    Annotation" ends without suspending: the handler has set the error
    text and returned, no request has been sent, and the annotation list
    and the document bytes are what they were. *)
Theorem add_without_label_or_text (now : N)
    (engine : AddAnnotationRequest → AddReply) (w : World) :
  missing (draftLabel (newAnnotation (ui w)))
  ∨ missing (draftSearchText (newAnnotation (ui w))) →
  handleAddAnnotation now (ui w)
  = Done (setAddError (Some "Label and search text are required") (ui w))
  ∧ sent (add now engine w) = []
  ∧ hookAfter (add now engine w) = hook w
  ∧ ended (add now engine w)
    = Returns (setAddError (Some "Label and search text are required")
                 (ui w)).
Proof.
  intros Hmiss.
  assert (Hh : handleAddAnnotation now (ui w)
               = Done (setAddError
                         (Some "Label and search text are required") (ui w))).
  { unfold handleAddAnnotation.
    destruct Hmiss as [H|H]; apply truthyOpt_missing in H; rewrite H;
      [done | by rewrite orb_true_r]. }
  split; [done|]. unfold add. by rewrite Hh.
Qed.

Lemma add_without_label_or_text_witness :
  (missing (draftLabel (newAnnotation (ui formOpened)))
   ∨ missing (draftSearchText (newAnnotation (ui formOpened))))
  ∧ sent (add 1714557600000 acceptAdd formOpened) = []
  ∧ hookAfter (add 1714557600000 acceptAdd formOpened) = hook formOpened.
Proof.
  assert (H : missing (draftLabel (newAnnotation (ui formOpened)))
              ∨ missing (draftSearchText (newAnnotation (ui formOpened))))
    by (left; by right).
  split; [exact H|].
  pose proof (add_without_label_or_text 1714557600000 acceptAdd formOpened H)
    as (_ & Hs & Hh & _).
  by split.
Defined.

(** C7. Whatever the id and whatever the engine answers, the click on a
    remove button ends normally.  A rejection is written to the console
    and changes nothing else; otherwise the list and the buffer are those
    the engine returned. *)
Theorem remove_never_throws (annotationId : string)
    (engine : string → RemoveReply) (w : World) :
  rejects (ended (remove annotationId engine w)) = false
  ∧ sent (remove annotationId engine w) = [annotationId]
  ∧ match engine annotationId with
    | RemoveRejected err =>
        ended (remove annotationId engine w)
        = Returns (consoleError "Failed to remove annotation:" err (ui w))
        ∧ hookAfter (remove annotationId engine w) = hook w
    | RemoveSettled result =>
        ended (remove annotationId engine w) = Returns (ui w)
        ∧ annotations (hookAfter (remove annotationId engine w))
          = remaining result
        ∧ documentBytes (hookAfter (remove annotationId engine w))
          = Some (removedBytes result)
    end.
Proof.
  unfold remove. simpl. by destruct (engine annotationId).
Qed.

(** Removing an id that no annotation has, from an engine that rejects
    it: one line on the console, the list and the buffer untouched. *)
Example remove_unknown_id :
  ended (remove "annot-0" refuseRemove formFilled)
  = Returns
      (consoleError "Failed to remove annotation:"
         (ErrorObject "No such annotation") (ui formFilled))
  ∧ hookAfter (remove "annot-0" refuseRemove formFilled) = hook formFilled.
Proof. by split. Qed.






(** *** The shape of a dispatched request *)

Lemma numberOr_nonzero (n : option Z) : Js.numberOr n 1 ≠ 0%Z.
Proof.
  unfold Js.numberOr. destruct n as [v|]; [|done].
  destruct (Z.eqb_spec v 0); [done | assumption].
Qed.

Lemma emptyDraft_kept : draftKept emptyDraft.
Proof. split; [done|]. split; [done|]. by exists 1%Z. Qed.

Lemma reachable_draftKept (st : State) :
  reachable st → draftKept (newAnnotation st).
Proof.
  induction 1 as [|a st _ IH]; [apply emptyDraft_kept|].
  destruct a as [[f|]| | | |[v|v|v|v]|now reply|annotationId reply];
    simpl; try exact IH.
  - destruct IH as (Hc & Hl & Ho). by split.
  - destruct IH as (Hc & Hl & Ho). split; [done|]. split; [done|].
    eexists. split; [done|]. apply numberOr_nonzero.
  - unfold handleAddAnnotation.
    destruct (negb _ || negb _); simpl; [exact IH|].
    destruct reply as [[[[] a b]|]|err]; simpl;
      first [exact IH | apply emptyDraft_kept].
  - by destruct reply.
Qed.

(** The part of C10 that holds.  A request that is sent from a reachable
    state has a non-empty label and search text, a label id derived from
    the label (lower case, every run of white space one underscore) and
    non-empty, a colour, and an occurrence that is not zero. *)
Lemma dispatched_request_shape (now : N) (st : State)
    (request : AddAnnotationRequest) :
  reachable st →
  request ∈ calls (handleAddAnnotation now st) →
  label request ≠ ""
  ∧ (∃ text, searchText request = Some text ∧ text ≠ "")
  ∧ labelId request
    = Js.underscoreSpaces false (Js.toLowerCase (label request))
  ∧ labelId request ≠ ""
  ∧ color request ≠ None
  ∧ occurrence request ≠ 0%Z.
Proof.
  intros (Hc & Hl & n & Ho & Hn)%reachable_draftKept.
  unfold handleAddAnnotation.
  destruct (draftLabel (newAnnotation st)) as [[|c l]|] eqn:El;
    simpl; try by intros ?%elem_of_nil.
  destruct (draftSearchText (newAnnotation st)) as [[|c' t]|] eqn:Et;
    simpl; try by intros ?%elem_of_nil.
  intros ->%list_elem_of_singleton. simpl.
  rewrite El, Et, Hl, Ho. simpl.
  destruct (Js.isSpace (Js.lowerChar c)); simpl;
    (split; [done|]; split; [by eexists|]; split; [done|];
     split; [done|]; split; [done|]; by destruct (Z.eqb_spec n 0)).
Qed.

(** C10 at the input where it fails.  "-5" typed into the occurrence
    field is parsed to -5, which is truthy, so neither [|| 1] replaces
    it: the request goes out with occurrence -5. *)
Theorem negative_occurrence_is_sent (now : N)
    (engine : AddAnnotationRequest → AddReply) :
  reachable (ui formMinusFive)
  ∧ occurrence <$> sent (add now engine formMinusFive) = [(-5)%Z].
Proof.
  split; [|done].
  apply (reachable_act (TypeInto (TypeOccurrence "-5"))),
        (reachable_act (TypeInto (TypeSearchText "liability"))),
        (reachable_act (TypeInto (TypeLabel "Key Term"))),
        (reachable_act OpenForm),
        (reachable_act (PickFile (Some sampleFile))),
        reachable_initial.
Qed.

(** *** Downloading *)

(** Without document bytes the click on "Download Annotated" produces
    nothing; a freshly loaded file has none. *)
Lemma download_without_bytes (w : World) :
  documentBytes (hook w) = None → download w = None.
Proof. unfold download. by intros ->. Qed.

Lemma download_after_load (st : State) (reported : list Annotation) :
  download {| ui := st; hook := hookLoad reported |} = None.
Proof. reflexivity. Qed.

(** With document bytes the blob is these bytes, unchanged. *)
Lemma download_blob (w : World) (bytes : Bytes) :
  documentBytes (hook w) = Some bytes →
  blob <$> download w = Some bytes.
Proof. unfold download. by intros ->. Qed.

(** A name with one ".docx", at its end, gets the suffix before it. *)
Lemma download_name_plain (bytes : Bytes) :
  downloadName <$>
    handleDownload (Some bytes)
      (handleFileChange (Some sampleFile) initial)
  = Some "contract-annotated.docx".
Proof. reflexivity. Qed.

(** The pattern cannot start inside a name and end inside an appended
    ".docx": it would have to start at the appended part. *)
Lemma prefix_docx_appended (c : ascii) (t : string) :
  String.prefix ".docx" (String c t) = false →
  String.prefix ".docx" (String c (t +:+ ".docx")) = false.
Proof.
  destruct t as [|c1 [|c2 [|c3 [|c4 t4]]]];
    repeat first
      [ progress change (String ?a ?b +:+ ?u) with (String a (b +:+ u))
      | progress change ("" +:+ ?u) with u
      | progress cbn [String.prefix]
      | match goal with
        | |- context [ascii_dec ?a ?b] =>
            destruct (ascii_dec a b) as [E|E];
            [try discriminate E; try subst | done]
        end ];
    try done.
  by destruct t4.
Qed.

Lemma append_empty (s : string) : s +:+ "" = s.
Proof.
  induction s as [|c s IH]; [done|].
  change (String c s +:+ "") with (String c (s +:+ "")). by rewrite IH.
Qed.

Lemma replaceFirst_docx_at_end (rep base : string) :
  Js.includes ".docx" base = false →
  Js.replaceFirst ".docx" rep (base +:+ ".docx") = base +:+ rep.
Proof.
  induction base as [|c t IH]; intros Hfree.
  - change ("" +:+ ".docx") with ".docx". change ("" +:+ rep) with rep.
    cbn [Js.replaceFirst String.prefix]. simpl. apply append_empty.
  - cbn [Js.includes] in Hfree. apply orb_false_elim in Hfree as [Hp Hrest].
    change (String c t +:+ ".docx") with (String c (t +:+ ".docx")).
    change (String c t +:+ rep) with (String c (t +:+ rep)).
    cbn [Js.replaceFirst]. rewrite (prefix_docx_appended c t Hp).
    by rewrite (IH Hrest).
Qed.

(** A name that ends in its only ".docx" gets the suffix before it. *)
Lemma download_name_single_extension (base : string) (bytes : Bytes)
    (st : State) :
  Js.includes ".docx" base = false →
  fileName st = base +:+ ".docx" →
  downloadName <$> handleDownload (Some bytes) st
  = Some (base +:+ "-annotated.docx").
Proof.
  intros Hfree Hname. simpl. rewrite Hname.
  by rewrite replaceFirst_docx_at_end.
Qed.

(** C8 at the input where it fails.  [replace] with a string pattern
    rewrites the first ".docx" of the name, which need not be the
    extension. *)
Theorem download_name_first_occurrence :
  fileName (ui twiceDocx) = "notes.docx.final.docx"
  ∧ download twiceDocx
    = Some {| blob := [Byte.x50; Byte.x4b];
              blobType :=
                "application/vnd.openxmlformats-officedocument.wordprocessingml.document";
              downloadName := "notes-annotated.docx.final.docx" |}.
Proof. split; reflexivity. Qed.

(** An extension in capitals is not recognised at all. *)
Lemma download_name_capitals (bytes : Bytes) :
  downloadName <$>
    handleDownload (Some bytes)
      (handleFileChange
         (Some {| name := "SCAN.DOCX"; content := bytes |}) initial)
  = Some "SCAN.DOCX".
Proof. reflexivity. Qed.

End AnnotationMutations.

(** ** More of the revision panel *)

Section PanelLists.

Import RevisionPanel Vocabulary.

(** The header total is the four counts and the records of unknown kind
    together; the latter are listed under "All Changes" only. *)
Theorem stats_total_splits (revisions : list Revision) :
  total (stats revisions)
  = (insertions (stats revisions) + deletions (stats revisions)
     + moves (stats revisions) + formatting (stats revisions)
     + length (filter unknownKind revisions))%nat
  ∧ (Forall (λ r, ¬ unknownKind r) revisions →
     total (stats revisions)
     = (insertions (stats revisions) + deletions (stats revisions)
        + moves (stats revisions) + formatting (stats revisions))%nat).
Proof.
  assert (Hsum : total (stats revisions)
    = (insertions (stats revisions) + deletions (stats revisions)
       + moves (stats revisions) + formatting (stats revisions)
       + length (filter unknownKind revisions))%nat).
  { unfold stats. simpl.
    induction revisions as [|r l IH]; [done|].
    rewrite !filter_cons. simpl. rewrite IH.
    destruct (revisionType r) eqn:E;
      repeat match goal with
             | |- context [decide ?P] =>
                 destruct (decide P) as [H|H];
                 unfold isInsertion, isDeletion, isMove, isFormatChange,
                   unknownKind in H;
                 rewrite E in H; try done; clear H
             end; simpl; lia. }
  split; [exact Hsum|].
  intros Hknown. rewrite Hsum.
  replace (filter unknownKind revisions) with (@nil Revision); [simpl; lia|].
  symmetry. clear Hsum. induction Hknown as [|r l Hr _ IH]; [done|].
  by rewrite filter_cons_False.
Qed.

Lemma stats_total_splits_witness :
  Forall (λ r, ¬ unknownKind r) mixedRevisions
  ∧ total (stats mixedRevisions)
    = (insertions (stats mixedRevisions) + deletions (stats mixedRevisions)
       + moves (stats mixedRevisions) + formatting (stats mixedRevisions))%nat.
Proof.
  assert (H : Forall (λ r, ¬ unknownKind r) mixedRevisions)
    by (by apply (bool_decide_unpack _)).
  split; [exact H|].
  exact (proj2 (stats_total_splits mixedRevisions) H).
Defined.

Lemma guard_listedUnder (r : Revision) :
  (isInsertion r = true ↔ listedUnder FilterInsertions r)
  ∧ (isDeletion r = true ↔ listedUnder FilterDeletions r)
  ∧ (isMove r = true ↔ listedUnder FilterMoves r)
  ∧ (isFormatChange r = true ↔ listedUnder FilterFormatting r).
Proof.
  unfold isInsertion, isDeletion, isMove, isFormatChange, listedUnder.
  by destruct (revisionType r).
Qed.

(** What an option of the filter lists: the records of its kind and no
    other, in the order of the document, as many as the option
    announces. *)
Theorem filter_lists_its_kind (flt : FilterType)
    (revisions : list Revision) :
  (∀ r, r ∈ filteredRevisions flt revisions
        ↔ r ∈ revisions ∧ listedUnder flt r)
  ∧ filteredRevisions flt revisions `sublist_of` revisions
  ∧ length (filteredRevisions flt revisions)
    = announced flt (stats revisions).
Proof.
  pose proof guard_listedUnder as Hg.
  split; [|split].
  - intros r. destruct (Hg r) as (Hi & Hd & Hm & Hf).
    destruct flt; simpl; rewrite ?list_elem_of_filter; tauto.
  - destruct flt; simpl; [done | apply sublist_filter ..].
  - by destruct flt.
Qed.

Lemma filter_same (g : Revision → bool) (l : list Revision) :
  filter (λ r, g r = true) (filter (λ r, g r = true) l)
  = filter (λ r, g r = true) l.
Proof. rewrite list_filter_filter. apply list_filter_iff. tauto. Qed.

Lemma filter_apart (g h : Revision → bool) (l : list Revision) :
  (∀ r, g r = true → h r = true → False) →
  filter (λ r, g r = true) (filter (λ r, h r = true) l) = [].
Proof.
  intros Hgh. rewrite list_filter_filter.
  induction l as [|r l IH]; [done|].
  rewrite filter_cons_False; [done|]. intros [? ?]. eauto.
Qed.

(** Filtering what a filter has left: "All Changes" changes nothing, the
    same kind again changes nothing, and another kind leaves nothing. *)
Theorem filter_after_filter (f g : FilterType) (revisions : list Revision) :
  filteredRevisions f (filteredRevisions g revisions)
  = match f, g with
    | FilterAll, _ => filteredRevisions g revisions
    | _, FilterAll => filteredRevisions f revisions
    | FilterInsertions, FilterInsertions
    | FilterDeletions, FilterDeletions
    | FilterMoves, FilterMoves
    | FilterFormatting, FilterFormatting => filteredRevisions f revisions
    | _, _ => []
    end.
Proof.
  destruct f, g; simpl; try done; try apply filter_same;
    apply filter_apart; intros r;
    unfold isInsertion, isDeletion, isMove, isFormatChange;
    by destruct (revisionType r).
Qed.

(** The message "No tracked changes found" stands for an empty list of
    revisions and for nothing else: a filter that matches no record gives
    a panel with its header and no item.  A panel has as many items as
    the selected option announces. *)
Theorem panel_rows (flt : FilterType) (expandedIds : gset nat)
    (revisions : list Revision) :
  (RevisionPanel.RevisionPanel flt expandedIds revisions = EmptyPanel
   ↔ revisions = [])
  ∧ (∀ header items,
       RevisionPanel.RevisionPanel flt expandedIds revisions
       = Panel header items →
       header = stats revisions
       ∧ length items = announced flt header
       ∧ ∀ i r, filteredRevisions flt revisions !! i = Some r →
                items !! i = Some (renderItem expandedIds i r)).
Proof.
  unfold RevisionPanel.RevisionPanel.
  destruct revisions as [|r0 l]; [by split|].
  split; [by split|].
  intros header items [= <- <-]. split; [done|]. split.
  - rewrite length_imap. by destruct flt.
  - intros i r Hi. by rewrite list_lookup_imap, Hi.
Qed.

(** The five records under "Formatting": one item, as announced. *)
Lemma panel_rows_witness :
  RevisionPanel.RevisionPanel FilterFormatting ∅ mixedRevisions
  = Panel (stats mixedRevisions) [renderItem ∅ 0 sizeAndItalic]
  ∧ length [renderItem ∅ 0 sizeAndItalic]
    = announced FilterFormatting (stats mixedRevisions).
Proof.
  assert (H : RevisionPanel.RevisionPanel FilterFormatting ∅ mixedRevisions
              = Panel (stats mixedRevisions) [renderItem ∅ 0 sizeAndItalic])
    by reflexivity.
  split; [exact H|].
  pose proof (proj2 (panel_rows FilterFormatting ∅ mixedRevisions) _ _ H)
    as (_ & Hlen & _).
  exact Hlen.
Defined.

(** Expanding is undone by expanding again, and concerns one index. *)
Theorem toggleExpanded_twice (index : nat) (expandedIds : gset nat) :
  toggleExpanded index (toggleExpanded index expandedIds) = expandedIds
  ∧ (index ∈ toggleExpanded index expandedIds ↔ index ∉ expandedIds)
  ∧ (∀ other, other ≠ index →
       other ∈ toggleExpanded index expandedIds ↔ other ∈ expandedIds).
Proof.
  unfold toggleExpanded.
  destruct (decide (index ∈ expandedIds)) as [Hin|Hout].
  - rewrite (bool_decide_eq_true_2 _ Hin).
    rewrite bool_decide_eq_false_2
      by (rewrite elem_of_difference, elem_of_singleton; tauto).
    split; [|split].
    + apply set_eq. intros j.
      rewrite elem_of_union, elem_of_difference, elem_of_singleton.
      destruct (decide (j = index)) as [->|]; tauto.
    + rewrite elem_of_difference, elem_of_singleton. tauto.
    + intros other Hne. rewrite elem_of_difference, elem_of_singleton. tauto.
  - rewrite (bool_decide_eq_false_2 _ Hout).
    rewrite bool_decide_eq_true_2
      by (rewrite elem_of_union, elem_of_singleton; tauto).
    split; [|split].
    + apply set_eq. intros j.
      rewrite elem_of_difference, elem_of_union, elem_of_singleton.
      destruct (decide (j = index)) as [->|]; tauto.
    + rewrite elem_of_union, elem_of_singleton. tauto.
    + intros other Hne. rewrite elem_of_union, elem_of_singleton. tauto.
Qed.

Lemma toggleExpanded_twice_witness :
  2 ≠ 5 ∧ (2 ∈ toggleExpanded 5 {[ 2 ]} ↔ 2 ∈ ({[ 2 ]} : gset nat)).
Proof.
  assert (H : 2 ≠ 5) by lia.
  split; [exact H|].
  pose proof (toggleExpanded_twice 5 {[ 2 ]}) as (_ & _ & Hother).
  exact (Hother 2 H).
Defined.

End PanelLists.

(** ** The text of an item *)

Section ItemText.

Import RevisionPanel Vocabulary.

Local Ltac push_app :=
  repeat first
    [ progress change (String ?a ?b +:+ ?u) with (String a (b +:+ u))
    | progress change ("" +:+ ?u) with u ].

Lemma length_append (a b : string) :
  String.length (a +:+ b) = (String.length a + String.length b)%nat.
Proof.
  induction a as [|c a IH]; push_app; [done|]. simpl. by rewrite IH.
Qed.

Lemma length_take (n : nat) (t : string) :
  String.length (String.substring 0 n t) = (n `min` String.length t)%nat.
Proof.
  revert t. induction n as [|n IH]; intros [|c t]; simpl; try done.
  by rewrite IH.
Qed.

Lemma take_append (a b : string) :
  String.substring 0 (String.length a) (a +:+ b) = a.
Proof.
  induction a as [|c a IH]; push_app; simpl.
  - by destruct b.
  - by rewrite IH.
Qed.

(** What is shown of a text never has more than [maxLength + 3]
    characters; a text of at most [maxLength] characters is shown as it
    is, and a longer one is shown with exactly [maxLength + 3], which is
    more than it has when it exceeds the limit by one or two. *)
Theorem truncateText_length (maxLength : nat) (t : string) :
  (String.length (truncateText maxLength t) ≤ maxLength + 3)%nat
  ∧ ((String.length t ≤ maxLength)%nat → truncateText maxLength t = t)
  ∧ ((maxLength < String.length t)%nat →
     String.length (truncateText maxLength t) = (maxLength + 3)%nat
     ∧ String.substring 0 maxLength (truncateText maxLength t)
       = String.substring 0 maxLength t).
Proof.
  unfold truncateText.
  destruct (Nat.leb_spec (String.length t) maxLength) as [Hle|Hlt].
  - split; [lia|]. split; [done|]. lia.
  - assert (Hlen : String.length (String.substring 0 maxLength t) = maxLength)
      by (rewrite length_take; lia).
    split; [rewrite length_append, Hlen; simpl; lia|].
    split; [lia|]. intros _.
    split; [rewrite length_append, Hlen; simpl; lia|].
    rewrite <- Hlen at 1. apply take_append.
Qed.

Lemma truncateText_length_witness :
  (String.length "abcde" ≤ 5)%nat ∧ truncateText 5 "abcde" = "abcde"
  ∧ (5 < String.length "abcdef")%nat
  ∧ String.length (truncateText 5 "abcdef") = 8%nat.
Proof.
  assert (H5 : (String.length "abcde" ≤ 5)%nat) by (simpl; lia).
  assert (H6 : (5 < String.length "abcdef")%nat) by (simpl; lia).
  pose proof (truncateText_length 5 "abcde") as (_ & Hsame & _).
  pose proof (truncateText_length 5 "abcdef") as (_ & _ & Hcut).
  split; [exact H5|]. split; [exact (Hsame H5)|].
  split; [exact H6|]. exact (proj1 (Hcut H6)).
Defined.

(** Truncating what has been truncated changes nothing. *)
Theorem truncateText_again (maxLength : nat) (t : string) :
  truncateText maxLength (truncateText maxLength t)
  = truncateText maxLength t.
Proof.
  unfold truncateText at 2 3.
  destruct (Nat.leb_spec (String.length t) maxLength) as [Hle|Hlt].
  - unfold truncateText. by rewrite (proj2 (Nat.leb_le _ _) Hle).
  - assert (Hlen : String.length (String.substring 0 maxLength t) = maxLength)
      by (rewrite length_take; lia).
    unfold truncateText.
    rewrite (proj2 (Nat.leb_gt _ _)) by (rewrite length_append, Hlen; simpl; lia).
    f_equal. rewrite <- Hlen at 1. apply take_append.
Qed.

(** An item never shows less than its text without offering "Show
    more", and with "Show less" it shows all of it. *)
Theorem item_text_or_button (expandedIds : gset nat) (index : nat)
    (r : Revision) :
  let item := renderItem expandedIds index r in
  (text r = "" ∧ textShown item = None ∧ expandButton item = None)
  ∨ (textShown item = Some (text r)
     ∧ expandButton item ≠ Some "Show more")
  ∨ (textShown item = Some (truncateText 150 (text r))
     ∧ expandButton item = Some "Show more"
     ∧ (150 < String.length (text r))%nat).
Proof.
  unfold renderItem. cbn zeta. cbn [textShown expandButton].
  destruct (text r) as [|c t] eqn:Et; [left; by rewrite ?Et|].
  rewrite <- Et. right.
  replace (Js.truthy (text r)) with true by (by rewrite Et). simpl.
  destruct (Nat.ltb_spec 150 (String.length (text r))) as [Hlong|Hshort].
  - destruct (bool_decide (index ∈ expandedIds)); [left | right]; by split.
  - left. split; [|done].
    destruct (bool_decide (index ∈ expandedIds)); [done|].
    f_equal. unfold truncateText.
    by rewrite (proj2 (Nat.leb_le _ _) Hshort).
Qed.

End ItemText.

(** ** The format details of an item *)

Section FormatRows.

Import RevisionPanel Vocabulary.

(** Rendering a value keeps it acceptable. *)
Lemma formatPropertyValue_valid (v : string) :
  isValidPropertyValue v = true →
  isValidPropertyValue (formatPropertyValue v) = true.
Proof.
  intros Hv. unfold formatPropertyValue.
  repeat (destruct (String.eqb v _); [reflexivity|]). exact Hv.
Qed.

Lemma loopFree_item_shape (olds news : Properties) (item : FormatChangeItem) :
  item ∈ loopFree olds news →
  (oldValue item ≠ None ∨ newValue item ≠ None)
  ∧ (∀ s, oldValue item = Some s → isValidPropertyValue s = true)
  ∧ (∀ s, newValue item = Some s → isValidPropertyValue s = true).
Proof.
  unfold loopFree. rewrite elem_of_app, !list_elem_of_fmap.
  intros [[[k v] [-> He]]|[[k v] [-> He]]];
    apply list_elem_of_filter in He; simpl.
  - destruct He as [Hv _]. split; [by left|]. split.
    + intros s [= <-]. by apply formatPropertyValue_valid.
    + intros s. unfold shown.
      destruct (entryOf k news) as [nv|]; [|done].
      destruct (isValidPropertyValue nv) eqn:Hok; [|done].
      intros [= <-]. by apply formatPropertyValue_valid.
  - destruct He as [[_ Hv] _]. split; [by right|]. split; [done|].
    intros s [= <-]. by apply formatPropertyValue_valid.
Qed.

(** Format details are shown for a format-change record only.  Each row
    shows at least one value and exactly one of the three marks (arrow,
    "(added)", "(removed)"), and every value it shows passes the value
    filter: it is not empty, has no "<" in it and at most 100
    characters. *)
Theorem format_row_shows_value (expandedIds : gset nat) (index : nat)
    (r : Revision) (row : ChangeRow) :
  row ∈ formatDetails (renderItem expandedIds index r) →
  isFormatChange r = true
  ∧ (rowOld row ≠ None ∨ rowNew row ≠ None)
  ∧ (rowArrow row, rowAdded row, rowRemoved row)
    = (bool_decide (rowOld row ≠ None ∧ rowNew row ≠ None),
       bool_decide (rowOld row = None),
       bool_decide (rowNew row = None))
  ∧ (∀ v, rowOld row = Some v ∨ rowNew row = Some v →
       v ≠ "" ∧ Js.includes "<" v = false
       ∧ (String.length v ≤ 100)%nat).
Proof.
  unfold renderItem. cbn zeta. cbn [formatDetails].
  destruct (isFormatChange r) eqn:Hk; [|by intros ?%elem_of_nil].
  destruct (0 <? length (getFormatChanges r))%nat;
    [|by intros ?%elem_of_nil].
  intros [item [-> Hitem]]%list_elem_of_fmap.
  rewrite getFormatChanges_loopFree in Hitem.
  apply loopFree_item_shape in Hitem as (Hsome & Hold & Hnew).
  assert (Hshape : ∀ v, isValidPropertyValue v = true →
            Js.truthy v = true ∧ v ≠ "" ∧ Js.includes "<" v = false
            ∧ (String.length v ≤ 100)%nat).
  { intros v Hv. split; [by apply truthy_of_valid|].
    unfold isValidPropertyValue in Hv.
    destruct v as [|c v]; [done|]. simpl Js.truthy in Hv. cbn [negb] in Hv.
    destruct (Js.includes "<" (String c v)); [done|].
    rewrite orb_false_l in Hv.
    destruct (_ || _); [done|].
    destruct (Nat.ltb_spec 100 (String.length (String c v))); [done|].
    by repeat split. }
  split; [done|]. unfold renderChange. simpl.
  destruct (oldValue item) as [o|] eqn:Eo, (newValue item) as [n|] eqn:En;
    simpl;
    try (destruct (Hshape o (Hold o eq_refl)) as (-> & Ho));
    try (destruct (Hshape n (Hnew n eq_refl)) as (-> & Hn));
    simpl.
  - split; [by left|]. split; [done|].
    intros v [[= <-]|[= <-]]; done.
  - split; [by left|]. split; [done|].
    intros v [[= <-]|?]; done.
  - split; [by right|]. split; [done|].
    intros v [?|[= <-]]; done.
  - by destruct Hsome.
Qed.

Lemma format_row_shows_value_witness :
  {| rowProperty := "Font Size"; rowOld := Some "12"; rowArrow := true;
     rowNew := Some "14"; rowAdded := false; rowRemoved := false |}
  ∈ formatDetails (renderItem ∅ 4 sizeAndItalic)
  ∧ isFormatChange sizeAndItalic = true.
Proof.
  assert (H : {| rowProperty := "Font Size"; rowOld := Some "12";
                 rowArrow := true; rowNew := Some "14"; rowAdded := false;
                 rowRemoved := false |}
              ∈ formatDetails (renderItem ∅ 4 sizeAndItalic))
    by (right; left).
  split; [exact H|].
  exact (proj1 (format_row_shows_value ∅ 4 sizeAndItalic _ H)).
Defined.

(** *** Property names *)

Lemma trimStart_startsClean (s : string) : startsClean (Js.trimStart s).
Proof.
  induction s as [|c s IH]; simpl; [done|].
  by destruct (Js.isSpace c) eqn:Hc.
Qed.

Lemma startsClean_trimStart (s : string) :
  startsClean s → Js.trimStart s = s.
Proof. destruct s as [|c s]; simpl; [done|]. by intros ->. Qed.

Lemma trimEnd_startsClean (s : string) :
  startsClean s → startsClean (Js.trimEnd s).
Proof.
  destruct s as [|c s]; simpl; [done|]. intros Hc.
  destruct (Js.trimEnd s); by rewrite ?Hc.
Qed.

Lemma trimEnd_endsClean (s : string) : endsClean (Js.trimEnd s).
Proof.
  induction s as [|c s IH]; simpl; [done|].
  destruct (Js.trimEnd s) as [|c' s'] eqn:Es.
  - by destruct (Js.isSpace c) eqn:Hc.
  - exact IH.
Qed.

Lemma endsClean_trimEnd (s : string) : endsClean s → Js.trimEnd s = s.
Proof.
  induction s as [|c s IH]; [done|].
  destruct s as [|c' s'].
  - simpl. by intros ->.
  - intros Hs. change (endsClean (String c' s')) in Hs.
    cbn [Js.trimEnd]. cbn [Js.trimEnd] in IH. by rewrite (IH Hs).
Qed.

(** A property name is shown without white space at either end: what
    [formatPropertyName] returns is left as it is by [trim]. *)
Theorem formatPropertyName_trimmed (name : string) :
  startsClean (formatPropertyName name)
  ∧ endsClean (formatPropertyName name)
  ∧ Js.trim (formatPropertyName name) = formatPropertyName name.
Proof.
  unfold formatPropertyName.
  set (s := Js.capitalizeFirst (Js.spaceBeforeCapitals name)).
  assert (Hstart : startsClean (Js.trim s))
    by apply trimEnd_startsClean, trimStart_startsClean.
  assert (Hend : endsClean (Js.trim s)) by apply trimEnd_endsClean.
  split; [done|]. split; [done|].
  unfold Js.trim at 1.
  by rewrite (startsClean_trimStart _ Hstart), (endsClean_trimEnd _ Hend).
Qed.

End FormatRows.

(** ** Sessions of the document viewer *)

Section ViewerSessions.

Import Host DocumentViewer Vocabulary.

Local Ltac handler_cases st :=
  let E := fresh "E" in
  unfold handleFileChange, reconvert, handleCommentModeChange,
    handlePaginationToggle, fabricateClassesChanged;
  destruct (pendingFile st) eqn:E; simpl.

Local Ltac sent_cases :=
  first [ by intros ?%elem_of_nil
        | intros ->%list_elem_of_singleton; simpl; by split ].

(** Whatever the event, a conversion that is sent is the conversion of
    the file loaded once the event is handled, with the settings stored
    then.  Its options never carry an empty additional CSS, and carry a
    scale exactly when the pagination mode is "paginated". *)
Theorem conversion_reflects_state (e : ViewerEvent) (st : State)
    (c : Convert) :
  c ∈ calls (viewerStep e st) →
  let after := committed (viewerStep e st) in
  pendingFile after = Some (convertFile c)
  ∧ convertOptions c = getConvertOptions after
  ∧ optAdditionalCss (convertOptions c) ≠ Some ""
  ∧ (optPaginationScale (convertOptions c) ≠ None
     ↔ optPaginationMode (convertOptions c) = Paginated).
Proof.
  intros Hc after.
  assert (Hwf : ∀ s, optAdditionalCss (getConvertOptions s) ≠ Some ""
            ∧ (optPaginationScale (getConvertOptions s) ≠ None
               ↔ optPaginationMode (getConvertOptions s) = Paginated)).
  { intros s. simpl. split.
    - unfold orUndefined. by destruct (additionalCss s).
    - by destruct (enablePagination s). }
  assert (Hmain : pendingFile after = Some (convertFile c)
                  ∧ convertOptions c = getConvertOptions after).
  { subst after. revert Hc.
    destruct e as [[f|]| |[ch|]]; simpl;
      try (by intros ?%elem_of_nil).
    - by intros ->%list_elem_of_singleton.
    - destruct ch; simpl; try (by intros ?%elem_of_nil);
        handler_cases st; sent_cases.
    - handler_cases st; sent_cases. }
  destruct Hmain as [Hfile Hopts]. split; [done|]. split; [done|].
  rewrite Hopts. apply Hwf.
Qed.

Lemma conversion_reflects_state_witness :
  conversionOf sampleFile
    (mergeSettings (ChangePaginationMode true) viewerWithFile)
  ∈ calls (viewerStep (Options (Changed (ChangePaginationMode true)))
             viewerWithFile)
  ∧ optPaginationScale
      (getConvertOptions
         (mergeSettings (ChangePaginationMode true) viewerWithFile))
    ≠ None.
Proof.
  assert (H : conversionOf sampleFile
                (mergeSettings (ChangePaginationMode true) viewerWithFile)
              ∈ calls (viewerStep
                         (Options (Changed (ChangePaginationMode true)))
                         viewerWithFile)) by left.
  split; [exact H|].
  pose proof (conversion_reflects_state _ _ _ H) as (_ & _ & _ & Hscale).
  by apply Hscale.
Defined.

Lemma viewerRun_app (pre post : list ViewerEvent) (st : State) :
  viewerRun (pre ++ post) st
  = ((viewerRun post (viewerRun pre st).1).1,
     (viewerRun pre st).2 ++ (viewerRun post (viewerRun pre st).1).2).
Proof.
  revert st. induction pre as [|e pre IH]; intros st; simpl.
  - by destruct (viewerRun post st).
  - rewrite IH. simpl. by rewrite app_assoc.
Qed.

Lemma viewerStep_pendingFile (e : ViewerEvent) (st : State) :
  pendingFile (committed (viewerStep e st))
  = lastPicked [e] (pendingFile st).
Proof.
  destruct e as [[f|]| |[ch|]]; simpl; try done.
  - destruct ch; simpl; try done; by handler_cases st.
  - by handler_cases st.
Qed.

Lemma viewerRun_pendingFile (events : list ViewerEvent) (st : State) :
  pendingFile (viewerRun events st).1 = lastPicked events (pendingFile st).
Proof.
  revert st. induction events as [|e events IH]; intros st; [done|].
  simpl. rewrite IH, viewerStep_pendingFile. done.
Qed.

(** Along a session, the file the viewer holds is the one picked last
    and not cleared since, and this is the file of every conversion: an
    event that sends a conversion sends it for that file. *)
Theorem conversions_of_last_pick (pre : list ViewerEvent) (e : ViewerEvent)
    (st : State) :
  pendingFile (viewerRun pre st).1 = lastPicked pre (pendingFile st)
  ∧ (viewerRun (pre ++ [e]) st).2
    = (viewerRun pre st).2 ++ calls (viewerStep e (viewerRun pre st).1)
  ∧ (∀ c, c ∈ calls (viewerStep e (viewerRun pre st).1) →
       lastPicked (pre ++ [e]) (pendingFile st) = Some (convertFile c)).
Proof.
  split; [apply viewerRun_pendingFile|]. split.
  - rewrite viewerRun_app. simpl. by rewrite app_nil_r.
  - intros c Hc.
    unfold lastPicked. rewrite foldl_app. fold (lastPicked pre (pendingFile st)).
    rewrite <- viewerRun_pendingFile.
    change (lastPicked [e] (pendingFile (viewerRun pre st).1)
            = Some (convertFile c)).
    rewrite <- viewerStep_pendingFile.
    revert Hc. generalize (viewerRun pre st).1. intros s.
    destruct e as [[f|]| |[ch|]]; simpl;
      try (by intros ?%elem_of_nil).
    + by intros ->%list_elem_of_singleton.
    + destruct ch; simpl; try (by intros ?%elem_of_nil);
        handler_cases s;
        first [ by intros ?%elem_of_nil
              | by intros ->%list_elem_of_singleton ].
    + handler_cases s;
        first [ by intros ?%elem_of_nil
              | by intros ->%list_elem_of_singleton ].
Qed.

(** Pick, clear, pick again, then tick "Enable pagination": the
    conversion is of the second file. *)
Lemma conversions_of_last_pick_witness :
  conversionOf {| name := "second.docx"; content := [] |}
    (mergeSettings (ChangePaginationMode true) viewerWithFile)
  ∈ calls (viewerStep (Options (Changed (ChangePaginationMode true)))
             (viewerRun [PickDocument (Some sampleFile); ClearDocument;
                         PickDocument
                           (Some {| name := "second.docx"; content := [] |})]
                        DocumentViewer.initial).1)
  ∧ lastPicked
      ([PickDocument (Some sampleFile); ClearDocument;
        PickDocument (Some {| name := "second.docx"; content := [] |})]
       ++ [Options (Changed (ChangePaginationMode true))])
      (pendingFile DocumentViewer.initial)
    = Some {| name := "second.docx"; content := [] |}.
Proof.
  set (events := [PickDocument (Some sampleFile); ClearDocument;
                  PickDocument
                    (Some {| name := "second.docx"; content := [] |})]).
  set (e := Options (Changed (ChangePaginationMode true))).
  set (c := conversionOf {| name := "second.docx"; content := [] |}
              (mergeSettings (ChangePaginationMode true) viewerWithFile)).
  assert (H : c ∈ calls (viewerStep e
                           (viewerRun events DocumentViewer.initial).1))
    by left.
  split; [exact H|].
  pose proof (conversions_of_last_pick events e DocumentViewer.initial)
    as (_ & _ & Hlast).
  exact (Hlast c H).
Defined.

Lemma options_without_file (opts : list OptionsEvent) (st : State) :
  pendingFile st = None →
  pendingFile (viewerRun (Options <$> opts) st).1 = None
  ∧ (viewerRun (Options <$> opts) st).2 = [].
Proof.
  revert st. induction opts as [|o opts IH]; intros st Hnone; [done|].
  simpl.
  assert (Hstep : pendingFile (committed (onEvent o st)) = None
                  ∧ calls (onEvent o st) = []).
  { destruct o as [ch|]; simpl.
    - destruct ch; simpl; try done;
        unfold handleCommentModeChange, handlePaginationToggle,
          fabricateClassesChanged; by rewrite Hnone.
    - unfold reconvert. by rewrite Hnone. }
  destruct Hstep as [Hfile Hcalls]. rewrite Hcalls. simpl.
  by apply IH.
Qed.

(** Clear forgets the file and keeps the settings.  After it, changes of
    the options convert nothing and are not lost: the next file picked is
    converted once, with the settings as they stand then. *)
Theorem settings_survive_clear (opts : list OptionsEvent) (f : File)
    (st : State) :
  getConvertOptions (handleClear st) = getConvertOptions st
  ∧ (viewerRun (ClearDocument :: (Options <$> opts)) st).2 = []
  ∧ (viewerRun (ClearDocument :: (Options <$> opts)
                 ++ [PickDocument (Some f)]) st).2
    = [conversionOf f
         (viewerRun (ClearDocument :: (Options <$> opts)) st).1].
Proof.
  split; [done|].
  destruct (options_without_file opts (handleClear st) eq_refl)
    as [Hfile Hcalls].
  split; [simpl; exact Hcalls|].
  change (ClearDocument :: (Options <$> opts) ++ [PickDocument (Some f)])
    with ((ClearDocument :: (Options <$> opts)) ++ [PickDocument (Some f)]).
  rewrite viewerRun_app. cbn [snd fst].
  replace (viewerRun (ClearDocument :: (Options <$> opts)) st).2
    with (@nil Convert) by (simpl; by rewrite Hcalls).
  reflexivity.
Qed.

End ViewerSessions.

(** ** More of the annotation viewer *)

Section AnnotationSessions.

Import Host AnnotationViewer Vocabulary.

(** A click on "Add Annotation" never rejects.  When a request is sent,
    the button is disabled and the error cleared while the engine works,
    and the button is enabled again whatever the engine answers; when the
    form is refused, the flag is not touched. *)
Theorem add_button_lifecycle (now : N) (reply : AddReply) (st : State) :
  let h := handleAddAnnotation now st in
  rejects (settle (λ _, reply) h) = false
  ∧ isAdding (finalState (settle (λ _, reply) h))
    = (if calls h is [] then isAdding st else false)
  ∧ (calls h ≠ [] →
     isAdding (committed h) = true ∧ addError (committed h) = None).
Proof.
  unfold handleAddAnnotation.
  destruct (negb _ || negb _); simpl; [by repeat split|].
  split; [done|]. split; [|done].
  by destruct reply as [[[[] a b]|]|err].
Qed.

Lemma add_button_lifecycle_witness :
  calls (handleAddAnnotation 1714557600000 typedKeyTerm) ≠ []
  ∧ isAdding (committed (handleAddAnnotation 1714557600000 typedKeyTerm))
    = true.
Proof.
  assert (H : calls (handleAddAnnotation 1714557600000 typedKeyTerm) ≠ [])
    by discriminate.
  split; [exact H|].
  pose proof (add_button_lifecycle 1714557600000
                (AddSettled None) typedKeyTerm) as (_ & _ & Hbusy).
  exact (proj1 (Hbusy H)).
Defined.

(** How an add that was sent ends.  On success the form is reset and
    closed and no error is shown.  Otherwise the form and what was typed
    stay, and an error is shown, except when the engine rejected with an
    [Error] whose message is empty: then nothing is shown. *)
Theorem add_outcome (now : N) (reply : AddReply) (st : State) :
  calls (handleAddAnnotation now st) ≠ [] →
  let final := finalState (settle (λ _, reply) (handleAddAnnotation now st)) in
  (succeeded reply →
     newAnnotation final = emptyDraft ∧ showAddForm final = false
     ∧ errorShown final = None)
  ∧ (¬ succeeded reply →
     newAnnotation final = newAnnotation st
     ∧ showAddForm final = showAddForm st
     ∧ (errorShown final = None ↔ reply = AddRejected (ErrorObject ""))).
Proof.
  unfold handleAddAnnotation, succeeded.
  destruct (negb _ || negb _); simpl; [done|]. intros _.
  destruct reply as [[[[] a b]|]|[[|c m]|v]]; simpl; split;
    try (intros (r & [= <-] & Hr); by simpl in Hr);
    try (intros (r & [= ] & Hr));
    try (intros Hno; repeat split; (done || by intros [= ]));
    try (intros Hno; destruct Hno; by eexists).
Qed.

Lemma add_outcome_witness :
  calls (handleAddAnnotation 1714557600000 typedKeyTerm) ≠ []
  ∧ ¬ succeeded (AddRejected (ErrorObject ""))
  ∧ errorShown
      (finalState (settle (λ _, AddRejected (ErrorObject ""))
                     (handleAddAnnotation 1714557600000 typedKeyTerm)))
    = None.
Proof.
  assert (H : calls (handleAddAnnotation 1714557600000 typedKeyTerm) ≠ [])
    by discriminate.
  assert (Hno : ¬ succeeded (AddRejected (ErrorObject "")))
    by (by intros (r & [= ] & _)).
  split; [exact H|]. split; [exact Hno|].
  destruct (add_outcome 1714557600000 (AddRejected (ErrorObject ""))
              typedKeyTerm H) as [_ Hfail].
  destruct (Hfail Hno) as (_ & _ & Hshown). by apply Hshown.
Defined.

(** What was typed into the form is changed by typing and by an add that
    succeeded, and by nothing else: not by picking another file, not by
    Clear, not by Cancel. *)
Theorem draft_changed_only_by (a : Action) (st : State) :
  newAnnotation (act a st) ≠ newAnnotation st →
  (∃ input, a = TypeInto input)
  ∨ (∃ now reply, a = ClickAdd now reply ∧ succeeded reply).
Proof.
  destruct a as [[f|]| | | |input|now reply|annotationId reply]; simpl;
    try done.
  - intros _. left. by eexists.
  - unfold handleAddAnnotation.
    destruct (negb _ || negb _); simpl; [done|].
    destruct reply as [[[[] x b]|]|err]; simpl; try done.
    intros _. right. eexists _, _. split; [done|]. by eexists.
  - by destruct reply.
Qed.

Lemma draft_changed_only_by_witness :
  newAnnotation (act (TypeInto (TypeLabel "Key Term")) initial)
  ≠ newAnnotation initial
  ∧ ((∃ input, TypeInto (TypeLabel "Key Term") = TypeInto input)
     ∨ (∃ now reply,
          TypeInto (TypeLabel "Key Term") = ClickAdd now reply
          ∧ succeeded reply)).
Proof.
  assert (H : newAnnotation (act (TypeInto (TypeLabel "Key Term")) initial)
              ≠ newAnnotation initial) by discriminate.
  split; [exact H|].
  exact (draft_changed_only_by (TypeInto (TypeLabel "Key Term")) initial H).
Defined.

(** The component writes to the console only when a removal is
    rejected, one line each time; a failed add is not logged. *)
Theorem console_logs_failed_removals (a : Action) (st : State) :
  console (act a st)
  = console st
    ++ match a with
       | ClickRemove _ (RemoveRejected err) =>
           [("Failed to remove annotation:", err)]
       | _ => []
       end.
Proof.
  destruct a as [[f|]| | | |[v|v|v|v]|now reply|annotationId reply]; simpl;
    rewrite ?app_nil_r; try done.
  - unfold handleAddAnnotation.
    destruct (negb _ || negb _); simpl; [done|].
    by destruct reply as [[[[] x b]|]|err].
  - destruct reply; simpl; by rewrite ?app_nil_r.
Qed.

(** *** The label id *)

Lemma lowerChar_not_upper (c : ascii) : Js.isUpperAZ (Js.lowerChar c) = false.
Proof. by destruct c as [[] [] [] [] [] [] [] []]. Qed.

Lemma toLowerCase_chars (s : string) :
  Forall (λ c, Js.isUpperAZ c = false)
         (list_ascii_of_string (Js.toLowerCase s))
  ∧ String.length (Js.toLowerCase s) = String.length s.
Proof.
  induction s as [|c s [IH1 IH2]]; simpl; [done|]. split.
  - constructor; [apply lowerChar_not_upper | done].
  - by rewrite IH2.
Qed.

Lemma underscoreSpaces_chars (inRun : bool) (s : string) :
  Forall (λ c, Js.isUpperAZ c = false) (list_ascii_of_string s) →
  Forall (λ c, Js.isSpace c = false ∧ Js.isUpperAZ c = false)
         (list_ascii_of_string (Js.underscoreSpaces inRun s))
  ∧ (String.length (Js.underscoreSpaces inRun s) ≤ String.length s)%nat.
Proof.
  revert inRun. induction s as [|c s IH]; intros inRun Hs; simpl; [done|].
  apply Forall_cons in Hs as [Hc Hs].
  destruct (Js.isSpace c) eqn:Hsp; [destruct inRun|]; simpl.
  - destruct (IH true Hs). split; [done | lia].
  - destruct (IH true Hs). split; [|lia]. by constructor.
  - destruct (IH false Hs). split; [|lia]. by constructor.
Qed.

Lemma lowerChar_ascii (c : ascii) :
  (Js.code c <? 128)%nat = true →
  (Js.code (Js.lowerChar c) <? 128)%nat = true.
Proof.
  destruct c as [[] [] [] [] [] [] [] []]; intros H;
    try discriminate H; reflexivity.
Qed.

Lemma toLowerCase_ascii (s : string) :
  asciiOnly s → asciiOnly (Js.toLowerCase s).
Proof.
  unfold asciiOnly. induction s as [|c s IH]; simpl; [done|].
  intros [Hc Hs]%Forall_cons. constructor; [by apply lowerChar_ascii | auto].
Qed.

Lemma underscoreSpaces_ascii (inRun : bool) (s : string) :
  asciiOnly s → asciiOnly (Js.underscoreSpaces inRun s).
Proof.
  unfold asciiOnly. revert inRun.
  induction s as [|c s IH]; intros inRun; simpl; [done|].
  intros [Hc Hs]%Forall_cons.
  destruct (Js.isSpace c); [destruct inRun|]; simpl; auto.
Qed.

(** For a label of ASCII characters, the label id that is sent is made
    of ASCII characters, none of them white space or a capital letter,
    and is not longer than the label. *)
Theorem labelId_is_clean (now : N) (st : State)
    (request : AddAnnotationRequest) :
  reachable st →
  request ∈ calls (handleAddAnnotation now st) →
  asciiOnly (label request) →
  Forall (λ c, (Js.code c <? 128)%nat = true
               ∧ Js.isSpace c = false ∧ Js.isUpperAZ c = false)
         (list_ascii_of_string (labelId request))
  ∧ (String.length (labelId request) ≤ String.length (label request))%nat.
Proof.
  intros (_ & Hl & _)%reachable_draftKept.
  unfold handleAddAnnotation.
  destruct (draftLabel (newAnnotation st)) as [[|c l]|] eqn:El;
    simpl; try by intros ?%elem_of_nil.
  destruct (draftSearchText (newAnnotation st)) as [[|c' t]|] eqn:Et;
    simpl; try by intros ?%elem_of_nil.
  intros ->%list_elem_of_singleton.
  cbn [labelId label buildRequest]. rewrite El, Hl.
  cbn [orOpt Js.truthyOpt Js.truthy fmap option_fmap option_map Js.orElse].
  intros Hascii.
  destruct (toLowerCase_chars (String c l)) as [Hlow Hlen].
  destruct (underscoreSpaces_chars false _ Hlow) as [Hclean Hshort].
  pose proof (underscoreSpaces_ascii false _ (toLowerCase_ascii _ Hascii))
    as Hunits.
  assert (Hne : Js.truthy (Js.underscoreSpaces false
                             (Js.toLowerCase (String c l))) = true).
  { simpl. by destruct (Js.isSpace (Js.lowerChar c)). }
  rewrite Hne. split; [|rewrite <- Hlen; exact Hshort].
  unfold asciiOnly in Hunits.
  rewrite Forall_forall in Hunits, Hclean. apply Forall_forall.
  intros x Hx. split; [by apply Hunits | by apply Hclean].
Qed.

Lemma labelId_is_clean_witness :
  reachable (ui formFilled)
  ∧ buildRequest 1714557600000 (newAnnotation (ui formFilled))
    ∈ calls (handleAddAnnotation 1714557600000 (ui formFilled))
  ∧ asciiOnly "Key Term"
  ∧ Forall (λ c, (Js.code c <? 128)%nat = true
                 ∧ Js.isSpace c = false ∧ Js.isUpperAZ c = false)
           (list_ascii_of_string "key_term").
Proof.
  assert (Hr : reachable (ui formFilled)).
  { apply (reachable_act (TypeInto (TypeSearchText "liability"))),
          (reachable_act (TypeInto (TypeLabel "Key Term"))),
          (reachable_act OpenForm),
          (reachable_act (PickFile (Some sampleFile))),
          reachable_initial. }
  assert (Hc : buildRequest 1714557600000 (newAnnotation (ui formFilled))
               ∈ calls (handleAddAnnotation 1714557600000 (ui formFilled)))
    by left.
  assert (Ha : asciiOnly "Key Term") by (by apply (bool_decide_unpack _)).
  split; [exact Hr|]. split; [exact Hc|]. split; [exact Ha|].
  exact (proj1 (labelId_is_clean _ _ _ Hr Hc Ha)).
Defined.

(** A request sent from the filled form, with its shape. *)
Lemma dispatched_request_shape_witness :
  reachable (ui formFilled)
  ∧ buildRequest 1714557600000 (newAnnotation (ui formFilled))
    ∈ calls (handleAddAnnotation 1714557600000 (ui formFilled))
  ∧ labelId (buildRequest 1714557600000 (newAnnotation (ui formFilled)))
    ≠ "".
Proof.
  assert (Hr : reachable (ui formFilled)).
  { apply (reachable_act (TypeInto (TypeSearchText "liability"))),
          (reachable_act (TypeInto (TypeLabel "Key Term"))),
          (reachable_act OpenForm),
          (reachable_act (PickFile (Some sampleFile))),
          reachable_initial. }
  assert (Hc : buildRequest 1714557600000 (newAnnotation (ui formFilled))
               ∈ calls (handleAddAnnotation 1714557600000 (ui formFilled)))
    by left.
  split; [exact Hr|]. split; [exact Hc|].
  pose proof (dispatched_request_shape _ _ _ Hr Hc) as (_ & _ & _ & H & _).
  exact H.
Defined.

(** *** Downloading, continued *)

Lemma download_name_single_extension_witness :
  Js.includes ".docx" "contract" = false
  ∧ downloadName <$>
      handleDownload (Some [Byte.x50])
        (handleFileChange (Some sampleFile) initial)
    = Some "contract-annotated.docx".
Proof.
  assert (H : Js.includes ".docx" "contract" = false) by reflexivity.
  split; [exact H|].
  exact (download_name_single_extension "contract" [Byte.x50]
           (handleFileChange (Some sampleFile) initial) H eq_refl).
Defined.

Lemma replaceFirst_absent (pat rep s : string) :
  Js.includes pat s = false → Js.replaceFirst pat rep s = s.
Proof.
  induction s as [|c s IH]; cbn [Js.includes Js.replaceFirst];
    intros [Hp Hrest]%orb_false_elim; rewrite Hp; [done|].
  by rewrite (IH Hrest).
Qed.

(** A file whose name has no ".docx" in it, in this very spelling, is
    exported under its own name: nothing marks the export as annotated. *)
Theorem download_name_unchanged (bytes : Bytes) (st : State) :
  Js.includes ".docx" (fileName st) = false →
  handleDownload (Some bytes) st
  = Some {| blob := bytes;
            blobType :=
              "application/vnd.openxmlformats-officedocument.wordprocessingml.document";
            downloadName := fileName st |}.
Proof.
  intros Hfree. unfold handleDownload. by rewrite replaceFirst_absent.
Qed.

Lemma download_name_unchanged_witness :
  Js.includes ".docx" "SCAN.DOCX" = false
  ∧ downloadName <$>
      handleDownload (Some [Byte.x50])
        (handleFileChange
           (Some {| name := "SCAN.DOCX"; content := [Byte.x50] |}) initial)
    = Some "SCAN.DOCX".
Proof.
  assert (H : Js.includes ".docx" "SCAN.DOCX" = false) by reflexivity.
  split; [exact H|].
  exact (f_equal (fmap downloadName)
           (download_name_unchanged [Byte.x50]
              (handleFileChange
                 (Some {| name := "SCAN.DOCX"; content := [Byte.x50] |})
                 initial) H)).
Defined.


End AnnotationSessions.

Section OccurrenceField.

Import Host AnnotationViewer Vocabulary.

Local Ltac push_app :=
  repeat first
    [ progress change (String ?a ?b +:+ ?u) with (String a (b +:+ u))
    | progress change ("" +:+ ?u) with u ].

Lemma append_assoc (a b c : string) : (a +:+ b) +:+ c = a +:+ (b +:+ c).
Proof. induction a as [|x a IH]; push_app; [done|]. by rewrite IH. Qed.

Lemma chars_append (a b : string) :
  list_ascii_of_string (a +:+ b)
  = list_ascii_of_string a ++ list_ascii_of_string b.
Proof. induction a as [|x a IH]; push_app; simpl; [done|]. by rewrite IH. Qed.

Lemma digit_of_char (d : N) :
  (d < 10)%N →
  Js.isDigit (pretty_N_char d) = true
  ∧ Js.digitValue 10 (pretty_N_char d) = Some (Z.of_N d).
Proof.
  intros Hd.
  assert (d = 0 ∨ d = 1 ∨ d = 2 ∨ d = 3 ∨ d = 4 ∨ d = 5 ∨ d = 6 ∨ d = 7
          ∨ d = 8 ∨ d = 9)%N as Hcases by lia.
  repeat (destruct Hcases as [->|Hcases]; [by split|]). by subst.
Qed.

(** The decimal digits of a positive number, as [pretty] writes them,
    and what [readDigits] makes of them. *)
Lemma digits_of (x : N) :
  (0 < x)%N →
  ∃ ds k,
    ds ≠ ""
    ∧ Forall (λ c, Js.isDigit c = true) (list_ascii_of_string ds)
    ∧ (∀ s, pretty_N_go x s = ds +:+ s)
    ∧ (∀ acc s, Js.readDigits 10 acc (ds +:+ s)
                = Js.readDigits 10
                    (Some (default 0 acc * k + Z.of_N x)%Z) s).
Proof.
  induction (N.lt_wf_0 x) as [x _ IH]. intros Hx.
  destruct (digit_of_char (x `mod` 10)) as [Hdig Hval];
    [by apply N.mod_lt|].
  assert (Hsplit : Z.of_N x
                   = (10 * Z.of_N (x `div` 10) + Z.of_N (x `mod` 10))%Z).
  { rewrite (N.div_mod x 10) at 1 by done. lia. }
  destruct (decide (x `div` 10 = 0)%N) as [Hz|Hnz].
  - exists (String (pretty_N_char (x `mod` 10)) ""), 10%Z.
    split; [done|]. split; [by repeat constructor|]. split.
    + intros s. rewrite pretty_N_go_step by done. by rewrite Hz.
    + intros acc s. push_app. cbn [Js.readDigits]. rewrite Hval.
      do 2 f_equal. rewrite Hsplit, Hz. lia.
  - destruct (IH (x `div` 10)%N) as (ds & k & Hne & Hds & Hgo & Hread);
      [by apply N.div_lt | |].
    { by apply N.neq_0_lt_0. }
    exists (ds +:+ String (pretty_N_char (x `mod` 10)) ""), (k * 10)%Z.
    split; [by destruct ds|]. split.
    { rewrite chars_append. apply Forall_app. split; [done|].
      by repeat constructor. }
    split.
    + intros s. rewrite pretty_N_go_step by done.
      rewrite Hgo, append_assoc. by push_app.
    + intros acc s. rewrite append_assoc. push_app.
      rewrite Hread. cbn [Js.readDigits]. rewrite Hval.
      do 2 f_equal. simpl. rewrite Hsplit. lia.
Qed.

Lemma digit_plain (c : ascii) :
  Js.isDigit c = true →
  Js.isSpace c = false ∧ Js.readSign (String c "") = (1%Z, String c "")
  ∧ c ≠ "x"%char ∧ c ≠ "X"%char.
Proof.
  destruct c as [[] [] [] [] [] [] [] []]; intros Hd;
    try discriminate Hd; by repeat split.
Qed.

Lemma readSign_digit (c : ascii) (r : string) :
  Js.isDigit c = true → Js.readSign (String c r) = (1%Z, String c r).
Proof.
  destruct c as [[] [] [] [] [] [] [] []]; intros Hd;
    try discriminate Hd; done.
Qed.

Lemma readRadix_digits (c : ascii) (r : string) :
  Js.isDigit c = true →
  Forall (λ c, Js.isDigit c = true) (list_ascii_of_string r) →
  Js.readRadix (String c r) = (10%Z, String c r).
Proof.
  intros Hc Hr. destruct r as [|c2 r2].
  - destruct c as [[] [] [] [] [] [] [] []]; try discriminate Hc; done.
  - apply Forall_cons in Hr as [Hc2 _].
    destruct (digit_plain c2 Hc2) as (_ & _ & Hx & HX).
    destruct c as [[] [] [] [] [] [] [] []]; try discriminate Hc; try done.
    destruct c2 as [[] [] [] [] [] [] [] []]; try discriminate Hc2; done.
Qed.

(** [parseInt] of an unsigned decimal numeral reads its digits. *)
Lemma parseInt_digits (ds : string) :
  ds ≠ "" →
  Forall (λ c, Js.isDigit c = true) (list_ascii_of_string ds) →
  Js.parseInt ds = Js.toNumber <$> Js.readDigits 10 None ds
  ∧ Js.parseInt ("-" +:+ ds)
    = (λ n, Js.toNumber (- n)) <$> Js.readDigits 10 None ds.
Proof.
  destruct ds as [|c r]; [done|]. intros _ Hds.
  apply Forall_cons in Hds as [Hc Hr].
  destruct (digit_plain c Hc) as (Hsp & _).
  unfold Js.parseInt. split.
  - cbn [Js.trimStart]. rewrite Hsp, (readSign_digit c r Hc).
    lazy beta iota zeta. rewrite (readRadix_digits c r Hc Hr).
    destruct (Js.readDigits 10 None (String c r)) as [n|]; [|done].
    cbn [fmap option_fmap option_map]; do 2 f_equal; lia.
  - change ("-" +:+ String c r) with (String "-" (String c r)).
    change (Js.trimStart (String "-" (String c r)))
      with (String "-" (String c r)).
    change (Js.readSign (String "-" (String c r)))
      with ((-1)%Z, String c r).
    lazy beta iota zeta. rewrite (readRadix_digits c r Hc Hr).
    destruct (Js.readDigits 10 None (String c r)) as [n|]; [|done].
    cbn [fmap option_fmap option_map]; do 2 f_equal; lia.
Qed.

(** Reading back a number written in decimal gives the double nearest to
    it. *)
Lemma parseInt_pretty (z : Z) : Js.parseInt (pretty z) = Some (Js.toNumber z).
Proof.
  assert (Hpos : ∀ p, ∃ ds,
            pretty (Npos p) = ds ∧ ds ≠ ""
            ∧ Forall (λ c, Js.isDigit c = true) (list_ascii_of_string ds)
            ∧ Js.readDigits 10 None ds = Some (Zpos p)).
  { intros p. destruct (digits_of (Npos p)) as (ds & k & Hne & Hds & Hgo & Hrd);
      [done|].
    exists ds. unfold pretty, pretty_N.
    rewrite decide_False by done. rewrite Hgo.
    rewrite <- (append_empty ds) at 3 4 5.
    split; [by rewrite append_empty|].
    rewrite (append_empty ds) at 1 2.
    split; [done|]. split; [done|].
    rewrite Hrd. simpl. done. }
  destruct z as [|p|p].
  - reflexivity.
  - destruct (Hpos p) as (ds & Hp & Hne & Hds & Hrd).
    change (pretty (Zpos p)) with (pretty (Npos p)). rewrite Hp.
    by rewrite (proj1 (parseInt_digits ds Hne Hds)), Hrd.
  - destruct (Hpos p) as (ds & Hp & Hne & Hds & Hrd).
    change (pretty (Zneg p)) with ("-" +:+ pretty (Npos p)). rewrite Hp.
    by rewrite (proj2 (parseInt_digits ds Hne Hds)), Hrd.
Qed.

(** An integer of magnitude at most 2^53 is a double. *)
Lemma toNumber_safe (z : Z) :
  (Z.abs z ≤ 2 ^ 53)%Z → Js.toNumber z = z.
Proof.
  intros Hz.
  destruct (decide (Z.abs z < 2 ^ 53)%Z) as [Hlt|Hge].
  - unfold Js.toNumber.
    assert (Hlog : (Z.log2 (Z.abs z) < 53)%Z).
    { destruct (decide (Z.abs z = 0)%Z) as [->|Hnz]; [done|].
      apply Z.log2_lt_pow2; lia. }
    by rewrite (proj2 (Z.leb_le _ _)) by lia.
  - assert (z = 9007199254740992 ∨ z = -9007199254740992)%Z as [->| ->]
      by lia; reflexivity.
Qed.

(** An integer of magnitude at most 2^53, typed into the occurrence field
    as its decimal numeral, is stored as it is, negative ones included,
    except 0, which is stored as 1; the request then carries what is
    stored. *)
Theorem occurrence_typed_is_stored (z : Z) (now : N) (st : State) :
  (Z.abs z ≤ 2 ^ 53)%Z →
  let typed := onInput (TypeOccurrence (pretty z)) st in
  draftOccurrence (newAnnotation typed)
  = Some (if decide (z = 0%Z) then 1%Z else z)
  ∧ occurrence (buildRequest now (newAnnotation typed))
    = (if decide (z = 0%Z) then 1%Z else z).
Proof.
  intros Hsafe. cbn zeta.
  cbn [onInput newAnnotation setNewAnnotation withOccurrence
       draftOccurrence buildRequest occurrence].
  rewrite parseInt_pretty, (toNumber_safe z Hsafe). unfold Js.numberOr.
  destruct (decide (z = 0%Z)) as [->|Hz]; [done|].
  rewrite (proj2 (Z.eqb_neq z 0) Hz). by rewrite (proj2 (Z.eqb_neq z 0) Hz).
Qed.

Lemma occurrence_typed_is_stored_witness :
  (Z.abs (-5) ≤ 2 ^ 53)%Z
  ∧ draftOccurrence
      (newAnnotation (onInput (TypeOccurrence (pretty (-5)%Z)) initial))
    = Some (-5)%Z.
Proof.
  assert (H : (Z.abs (-5) ≤ 2 ^ 53)%Z) by (vm_compute; discriminate).
  split; [exact H|].
  exact (proj1 (occurrence_typed_is_stored (-5) 0 initial H)).
Defined.

(** Beyond 2^53 the number stored is the nearest double, not the integer
    typed. *)
Example occurrence_rounded :
  draftOccurrence
    (newAnnotation
       (onInput (TypeOccurrence "9007199254740993") initial))
  = Some 9007199254740992%Z.
Proof. reflexivity. Qed.

End OccurrenceField.
